(** * Layer upload sessions and the gRPC notification sink

    A shallow embedding of [notifications/grpc.go] (the [grpcSink]) and of
    the resumable layer writer of the storage package ([layerWriter]:
    [Finish], [Cancel], [validateLayer], [moveLayer], [linkLayer],
    [removeResources]).

    Both pieces of code are orchestrators: they compute little themselves
    and mostly call collaborators (the storage driver, the file reader, the
    gRPC client).  A method is therefore embedded as a finite tree of calls,
    [prog E A]: a leaf is a returned value, a node is one call on a
    collaborator together with the continuation that receives its answer.
    Running a tree against a handler (a model of the collaborators over some
    state) yields the returned value, the final state and the list of calls
    that were issued, in order. *)

From Stdlib Require Import ZArith Strings.Byte Strings.Ascii.
From stdpp Require Import base option list strings gmap.

Local Open Scope string_scope.
Local Open Scope list_scope.

(** ** Call trees *)

Section Prog.
Context {E : Type → Type}.

Inductive prog (A : Type) : Type :=
| Ret (a : A)
| Vis {T : Type} (c : E T) (k : T → prog A).

Global Arguments Ret {A} a.
Global Arguments Vis {A T} c k.

Fixpoint bind {A B} (p : prog A) (f : A → prog B) : prog B :=
  match p with
  | Ret a => f a
  | Vis c k => Vis c (λ r, bind (k r) f)
  end.

(** One call, its answer returned as it is. *)
Definition call {T} (c : E T) : prog T := Vis c Ret.

(** A call as it appears in a trace: the answer type is hidden. *)
Inductive called : Type :=
| Called {T : Type} (c : E T).

Definition handler (St : Type) : Type := ∀ T, E T → St → T * St.

Fixpoint run {St A} (h : handler St) (p : prog A) (s : St)
  : A * St * list called :=
  match p with
  | Ret a => (a, s, [])
  | Vis c k =>
      let '(r, s1) := h _ c s in
      let '(a, s2, t) := run h (k r) s1 in
      (a, s2, Called c :: t)
  end.
End Prog.

Global Arguments prog E A : clear implicits.
Global Arguments called E : clear implicits.
Global Arguments handler E St : clear implicits.

Global Instance prog_ret {E} : MRet (prog E) := λ A a, Ret a.
Global Instance prog_bind {E} : MBind (prog E) := λ A B f p, bind p f.

(** Projections of a run. *)
Definition result_of {A St T} (x : A * St * T) : A := x.1.1.
Definition state_of {A St T} (x : A * St * T) : St := x.1.2.
Definition trace_of {A St T} (x : A * St * T) : T := x.2.

(** ** Go values shared by both packages *)

(** [digest.Digest] is a Go string type; [d.String()] is the conversion. *)
Module digest.
Definition Digest : Type := string.
Definition String (d : Digest) : string := d.
End digest.

(** Go [error] values.  The code under study creates two of them and
    switches on a third; every other error is opaque to it. *)
Inductive error : Type :=
| PathNotFoundError (Path : string)
| ErrLayerInvalidDigest (Digest : digest.Digest) (Reason : error)
| ErrLayerTarSumVersionUnsupported
| Errorf (msg : string)
| OtherError (detail : string).

(** A Go [(T, error)] pair of results; a plain [error] result is an
    [option error], [None] being [nil]. *)
Inductive result (T : Type) : Type :=
| Ok (v : T)
| Err (err : error).
Global Arguments Ok {T} v.
Global Arguments Err {T} err.

(** [time.Time], as far as the code looks at it: [Unix] is the number of
    seconds since the epoch. *)
Module Time.
Record t : Type := Build { sec : Z; nsec : Z }.
Definition Unix (x : t) : Z := sec x.
End Time.

(** ** The gRPC notification sink ([notifications/grpc.go]) *)

Module grpcClient.
(** The wire messages of the event receiver service.  Message-typed fields
    are pointers in the generated Go code, hence [option]. *)
Module DescriptorMessage.
Record t : Type := Build { MediaType : string; Length : Z; Digest : string }.
End DescriptorMessage.

Module TargetMessage.
Record t : Type := Build
  { Repository : string; URL : string;
    Descriptor_ : option DescriptorMessage.t }.
End TargetMessage.

Module RequestRecordMessage.
Record t : Type := Build
  { ID : string; Addr : string; Host : string; Method : string;
    UserAgent : string }.
End RequestRecordMessage.

Module ActorRecordMessage.
Record t : Type := Build { Name : string }.
End ActorRecordMessage.

Module SourceRecordMessage.
Record t : Type := Build { Addr : string; InstanceID : string }.
End SourceRecordMessage.

Module Event.
Record t : Type := Build
  { ID : string; Timestamp : Z; Action : string;
    Target : option TargetMessage.t;
    Request : option RequestRecordMessage.t;
    Actor : option ActorRecordMessage.t;
    Source : option SourceRecordMessage.t }.
End Event.

Module Events.
Record t : Type := Build { Events : list Event.t }.
End Events.

(** [*grpc.ClientConn]: a connection handle. *)
Inductive ClientConn : Type := Conn (target : string).

(** [NewEventReceiverClient] wraps the connection it is given. *)
Inductive EventReceiverClient : Type :=
| NewEventReceiverClient (cc : ClientConn).

(** The reply message of [Publish]; the sink discards it. *)
Inductive Response : Type := MkResponse.
End grpcClient.

Module notifications.

(** The event envelope, with the fields the sink reads. *)
Module Descriptor.
Record t : Type := Build
  { MediaType : string; Length : Z; Digest : digest.Digest }.
End Descriptor.

Module Target.
Record t : Type := Build
  { Descriptor : Descriptor.t; Repository : string; URL : string }.
End Target.

Module RequestRecord.
Record t : Type := Build
  { ID : string; Addr : string; Host : string; Method : string;
    UserAgent : string }.
End RequestRecord.

Module ActorRecord.
Record t : Type := Build { Name : string }.
End ActorRecord.

Module SourceRecord.
Record t : Type := Build { Addr : string; InstanceID : string }.
End SourceRecord.

Module Event.
Record t : Type := Build
  { ID : string; Timestamp : Time.t; Action : string;
    Target : Target.t; Request : RequestRecord.t;
    Actor : ActorRecord.t; Source : SourceRecord.t }.
End Event.

(** [context.Context]; the sink only ever passes the background one. *)
Inductive Context : Type := Background.

(** [sync.Mutex]; its zero value is unlocked. *)
Inductive Mutex : Type := Unlocked | Locked.

(** Calls the sink makes on the gRPC library and on its client. *)
Inductive sinkE : Type → Type :=
| Dial (url : string) : sinkE (result grpcClient.ClientConn)
| Publish (client : grpcClient.EventReceiverClient) (ctx : Context)
    (events : grpcClient.Events.t)
  : sinkE (option grpcClient.Response * option error)
| ConnClose (conn : grpcClient.ClientConn) : sinkE (option error).

Record grpcSink : Type := Build_grpcSink
  { url : string;
    mu : Mutex;
    closed : bool;
    client : grpcClient.EventReceiverClient;
    conn : grpcClient.ClientConn }.

Definition set_closed (b : bool) (g : grpcSink) : grpcSink :=
  {| url := url g; mu := mu g; closed := b; client := client g;
     conn := conn g |}.

Definition set_mu (m : Mutex) (g : grpcSink) : grpcSink :=
  {| url := url g; mu := m; closed := closed g; client := client g;
     conn := conn g |}.

(** [newGrpcSink]: a nil pointer is [None]. *)
Definition newGrpcSink (url : string) : prog sinkE (option grpcSink) :=
  r ← call (Dial url);
  match r with
  | Err _ => mret None
  | Ok conn =>
      let client := grpcClient.NewEventReceiverClient conn in
      mret (Some {| url := url; mu := Unlocked; closed := false;
                    client := client; conn := conn |})
  end.

(** The record literal built in the body of the loop of [Write]. *)
Definition wire_event (ev : Event.t) : grpcClient.Event.t :=
  {| grpcClient.Event.ID := Event.ID ev;
     grpcClient.Event.Timestamp := Time.Unix (Event.Timestamp ev);
     grpcClient.Event.Action := Event.Action ev;
     grpcClient.Event.Target := Some
       {| grpcClient.TargetMessage.Repository :=
            Target.Repository (Event.Target ev);
          grpcClient.TargetMessage.URL := Target.URL (Event.Target ev);
          grpcClient.TargetMessage.Descriptor_ := Some
            {| grpcClient.DescriptorMessage.MediaType :=
                 Descriptor.MediaType (Target.Descriptor (Event.Target ev));
               grpcClient.DescriptorMessage.Length :=
                 Descriptor.Length (Target.Descriptor (Event.Target ev));
               grpcClient.DescriptorMessage.Digest :=
                 digest.String
                   (Descriptor.Digest (Target.Descriptor (Event.Target ev)))
            |} |};
     grpcClient.Event.Request := Some
       {| grpcClient.RequestRecordMessage.ID :=
            RequestRecord.ID (Event.Request ev);
          grpcClient.RequestRecordMessage.Addr :=
            RequestRecord.Addr (Event.Request ev);
          grpcClient.RequestRecordMessage.Host :=
            RequestRecord.Host (Event.Request ev);
          grpcClient.RequestRecordMessage.Method :=
            RequestRecord.Method (Event.Request ev);
          grpcClient.RequestRecordMessage.UserAgent :=
            RequestRecord.UserAgent (Event.Request ev) |};
     grpcClient.Event.Actor := Some
       {| grpcClient.ActorRecordMessage.Name :=
            ActorRecord.Name (Event.Actor ev) |};
     grpcClient.Event.Source := Some
       {| grpcClient.SourceRecordMessage.Addr :=
            SourceRecord.Addr (Event.Source ev);
          grpcClient.SourceRecordMessage.InstanceID :=
            SourceRecord.InstanceID (Event.Source ev) |} |}.

(** The loop of [Write]: [events] starts empty and every iteration appends
    one record. *)
Definition Write_loop (e : list Event.t) : list grpcClient.Event.t :=
  foldl (λ events ev, events ++ [wire_event ev]) [] e.

Definition Write (g : grpcSink) (e : list Event.t)
  : prog sinkE (option error) :=
  let events := Write_loop e in
  r ← call (Publish (client g) Background
              {| grpcClient.Events.Events := events |});
  mret r.2.

Definition Close (g : grpcSink) : prog sinkE (option error) :=
  call (ConnClose (conn g)).

End notifications.

(** ** The resumable layer writer (package [storage]) *)

Module tarsum.
(** The versions of the archive digest, [tarsum.Version]. *)
Inductive Version : Type := Version0 | Version1 | VersionDev.
End tarsum.

Module storage.
Import tarsum.

(** The three path specifications the layer writer hands to the path
    mapper. *)
Inductive pathSpec : Type :=
| blobDataPathSpec (dgst : digest.Digest)
| layerLinkPathSpec (name : string) (dgst : digest.Digest)
| uploadDataPathSpec (name : string) (uuid : string).

(** What the layer writer takes from code that lies outside the file: the
    path mapper [pm.path], Go's [path.Dir], the version parser of the tarsum
    library, the well-known digest of the empty archive, and the two
    functions of a byte stream that the digest package computes:
    [Verified dgst content] is the answer of a verifier bound to [dgst]
    once [content] has been written to it, [FromTarArchive content] is the
    canonical digest of [content], or the error of the archive reader. *)
Class Collaborators : Type := {
  pm_path : pathSpec → result string;
  path_Dir : string → string;
  GetVersionFromTarsum : string → result Version;
  DigestTarSumV1EmptyTar : digest.Digest;
  Verified : digest.Digest → list byte → bool;
  FromTarArchive : list byte → result digest.Digest
}.

Record FileInfo : Type := Build_FileInfo
  { fi_Path : string; fi_Size : Z; fi_IsDir : bool }.

Record fileReader : Type := Build_fileReader
  { fr_path : string; fr_size : Z }.

Record fileWriter : Type := Build_fileWriter { path : string }.

Record layerStore : Type := Build_layerStore { repository_Name : string }.

Record layerWriter : Type := Build_layerWriter
  { lw_layerStore : layerStore;
    uuid : string;
    startedAt : Time.t;
    lw_fileWriter : fileWriter }.

(** [distribution.Layer], the handle [Fetch] resolves a digest to. *)
Record Layer : Type := Build_Layer
  { layer_Digest : digest.Digest; layer_Length : Z }.

Inductive Level : Type := Debug | Warn | Error.

(** Calls on the collaborators of the layer writer.  The writer's driver and
    the registry's driver are the same object, so one set of driver calls
    serves both.  [ReadAll] reads a file reader to its end. *)
Inductive storageE : Type → Type :=
| Log (lvl : Level) (msg : string) : storageE unit
| Stat (p : string) : storageE (result FileInfo)
| PutContent (p : string) (content : list byte) : storageE (option error)
| Move (sourcePath destPath : string) : storageE (option error)
| Delete (p : string) : storageE (option error)
| newFileReader (p : string) : storageE (result fileReader)
| ReadAll (fr : fileReader) : storageE (result (list byte))
| fileWriter_Close (fw : fileWriter) : storageE (option error)
| Fetch (dgst : digest.Digest) : storageE (result Layer).

Section LayerWriter.
Context `{K : Collaborators}.

Definition UUID (lw : layerWriter) : string := uuid lw.

Definition StartedAt (lw : layerWriter) : Time.t := startedAt lw.

(** Modelled from the spec: [digest.NewDigestVerifier], [io.TeeReader] over
    it and [digest.FromTarArchive] are absent.  The canonical digest is
    recomputed in a single pass over the reader, which is read to its end,
    every byte going through the verifier bound to the claimed digest on its
    way.  The result is the canonical digest together with the answer the
    verifier gives afterwards. *)
Definition FromTarArchive_tee (fr : fileReader) (dgst : digest.Digest)
  : prog storageE (result (digest.Digest * bool)) :=
  rd ← call (ReadAll fr);
  match rd with
  | Err err => mret (Err err)
  | Ok content =>
      match FromTarArchive content with
      | Err err => mret (Err err)
      | Ok canonical => mret (Ok (canonical, Verified dgst content))
      end
  end.

Definition validateLayer (lw : layerWriter) (dgst : digest.Digest)
  : prog storageE (result digest.Digest) :=
  match GetVersionFromTarsum (digest.String dgst) with
  | Err err => mret (Err err)
  | Ok version =>
      match version with
      | Version1 =>
          r ← call (newFileReader (path (lw_fileWriter lw)));
          match r with
          | Err err => mret (Err err)
          | Ok fr =>
              c ← FromTarArchive_tee fr dgst;
              match c with
              | Err err => mret (Err err)
              | Ok (canonical, verified) =>
                  if negb verified
                  then mret (Err (ErrLayerInvalidDigest dgst
                               (Errorf "content does not match digest")))
                  else mret (Ok canonical)
              end
          end
      | _ =>
          mret (Err (ErrLayerInvalidDigest dgst
                       ErrLayerTarSumVersionUnsupported))
      end
  end.

Definition moveLayer (lw : layerWriter) (dgst : digest.Digest)
  : prog storageE (option error) :=
  match pm_path (blobDataPathSpec dgst) with
  | Err err => mret (Some err)
  | Ok blobPath =>
      st ← call (Stat blobPath);
      match st with
      | Ok _ => mret None
      | Err (PathNotFoundError _) =>
          st2 ← call (Stat (path (lw_fileWriter lw)));
          match st2 with
          | Ok _ => call (Move (path (lw_fileWriter lw)) blobPath)
          | Err (PathNotFoundError _) =>
              if String.eqb dgst DigestTarSumV1EmptyTar
              then call (PutContent blobPath [])
              else
                _ ← call (Log Warn
                  "attempted to move zero-length content with non-zero digest");
                call (Move (path (lw_fileWriter lw)) blobPath)
          | Err err => mret (Some err)
          end
      | Err err => mret (Some err)
      end
  end.

Definition linkLayer (lw : layerWriter) (dgst : digest.Digest)
  : prog storageE (option error) :=
  match pm_path (layerLinkPathSpec
                   (repository_Name (lw_layerStore lw)) dgst) with
  | Err err => mret (Some err)
  | Ok layerLinkPath =>
      call (PutContent layerLinkPath (String.list_byte_of_string dgst))
  end.

Definition removeResources (lw : layerWriter)
  : prog storageE (option error) :=
  match pm_path (uploadDataPathSpec
                   (repository_Name (lw_layerStore lw)) (uuid lw)) with
  | Err err => mret (Some err)
  | Ok dataPath =>
      let dirPath := path_Dir dataPath in
      e ← call (Delete dirPath);
      match e with
      | None => mret None
      | Some (PathNotFoundError _) => mret None
      | Some err =>
          _ ← call (Log Error "unable to delete layer upload resources");
          mret (Some err)
      end
  end.

Definition Finish (lw : layerWriter) (dgst : digest.Digest)
  : prog storageE (result Layer) :=
  _ ← call (Log Debug "(*layerWriter).Finish");
  v ← validateLayer lw dgst;
  match v with
  | Err err => mret (Err err)
  | Ok canonical =>
      m ← moveLayer lw canonical;
      match m with
      | Some err => mret (Err err)
      | None =>
          l ← linkLayer lw canonical;
          match l with
          | Some err => mret (Err err)
          | None =>
              c ← removeResources lw;
              match c with
              | Some err => mret (Err err)
              | None => call (Fetch canonical)
              end
          end
      end
  end.

Definition Cancel (lw : layerWriter) : prog storageE (option error) :=
  _ ← call (Log Debug "(*layerWriter).Cancel");
  c ← removeResources lw;
  match c with
  | Some err => mret (Some err)
  | None =>
      _ ← call (fileWriter_Close (lw_fileWriter lw));
      mret None
  end.

End LayerWriter.
End storage.

(** ** A reference backend and reference collaborators

    Used to run the layer writer on concrete sessions. *)

Module inmemory.
Import storage.

(** Modelled from the spec: the storage driver is absent.  This is the
    driver contract of the spec (stat, putContent, atomic move, recursive
    delete, streamed read; a distinguished not-found condition against all
    other errors) over a finite map from paths to contents.  Every call that
    names a path listed in [broken] answers with a backend error. *)
Record mem : Type := Build_mem
  { files : gmap string (list byte); broken : list string }.

Definition set_files (m : gmap string (list byte)) (s : mem) : mem :=
  {| files := m; broken := broken s |}.

Definition unavailable (p : string) (s : mem) : bool :=
  bool_decide (p ∈ broken s).

Definition io_error : error := OtherError "backend unavailable".

(** [covers dir k]: [k] is [dir] itself or lies below it. *)
Definition covers (dir k : string) : bool :=
  String.eqb dir k || String.prefix (dir +:+ "/") k.

Definition subtree (dir : string) (m : gmap string (list byte))
  : gmap string (list byte) :=
  filter (λ kv, covers dir kv.1 = true) m.

Definition outside (dir : string) (m : gmap string (list byte))
  : gmap string (list byte) :=
  filter (λ kv, covers dir kv.1 = false) m.

Definition present (p : string) (m : gmap string (list byte)) : bool :=
  negb (bool_decide (subtree p m = ∅)).

Definition mem_Stat (p : string) (s : mem) : result FileInfo :=
  if unavailable p s then Err io_error
  else match files s !! p with
       | Some b =>
           Ok {| fi_Path := p; fi_Size := Z.of_nat (length b);
                 fi_IsDir := false |}
       | None =>
           if present p (files s)
           then Ok {| fi_Path := p; fi_Size := 0; fi_IsDir := true |}
           else Err (PathNotFoundError p)
       end.

Definition mem_PutContent (p : string) (b : list byte) (s : mem)
  : option error * mem :=
  if unavailable p s then (Some io_error, s)
  else (None, set_files (<[p := b]> (files s)) s).

Definition mem_Move (src dst : string) (s : mem) : option error * mem :=
  if unavailable src s || unavailable dst s then (Some io_error, s)
  else match files s !! src with
       | Some b => (None, set_files (<[dst := b]> (delete src (files s))) s)
       | None => (Some (PathNotFoundError src), s)
       end.

Definition mem_Delete (p : string) (s : mem) : option error * mem :=
  if unavailable p s then (Some io_error, s)
  else if present p (files s)
       then (None, set_files (outside p (files s)) s)
       else (Some (PathNotFoundError p), s).

Definition mem_newFileReader (p : string) (s : mem) : result fileReader :=
  if unavailable p s then Err io_error
  else Ok {| fr_path := p;
             fr_size := Z.of_nat (length (default [] (files s !! p))) |}.

Definition mem_ReadAll (fr : fileReader) (s : mem) : result (list byte) :=
  Ok (default [] (files s !! fr_path fr)).

Definition mem_Fetch `{K : Collaborators} (dgst : digest.Digest) (s : mem)
  : result Layer :=
  match pm_path (blobDataPathSpec dgst) with
  | Err err => Err err
  | Ok blobPath =>
      match files s !! blobPath with
      | Some b =>
          Ok {| layer_Digest := dgst;
                layer_Length := Z.of_nat (length b) |}
      | None => Err (OtherError "unknown layer")
      end
  end.

Definition driver `{K : Collaborators} : handler storageE mem :=
  λ T c s,
    match c in storageE T return T * mem with
    | Log _ _ => (tt, s)
    | Stat p => (mem_Stat p s, s)
    | PutContent p b => mem_PutContent p b s
    | Move src dst => mem_Move src dst s
    | Delete p => mem_Delete p s
    | newFileReader p => (mem_newFileReader p s, s)
    | ReadAll fr => (mem_ReadAll fr s, s)
    | fileWriter_Close _ => (None, s)
    | Fetch dgst => (mem_Fetch dgst s, s)
    end.

(** Modelled from the spec: the path builder is absent.  Blob paths depend
    on the digest only; link and scratch paths are namespaced under the
    repository, scratch paths under the session as well. *)
Definition example_path (spec : pathSpec) : result string :=
  match spec with
  | blobDataPathSpec d => Ok ("/v2/blobs/" +:+ d +:+ "/data")
  | layerLinkPathSpec n d =>
      Ok ("/v2/repositories/" +:+ n +:+ "/_layers/" +:+ d +:+ "/link")
  | uploadDataPathSpec n u =>
      Ok ("/v2/repositories/" +:+ n +:+ "/_uploads/" +:+ u +:+ "/data")
  end.

(** [path.Dir] restricted to clean rooted paths: what comes before the last
    slash. *)
Fixpoint drop_last_element (p : string) : option string :=
  match p with
  | EmptyString => None
  | String a rest =>
      match drop_last_element rest with
      | Some d => Some (String a d)
      | None => if Ascii.eqb a "/"%char then Some EmptyString else None
      end
  end.

Definition example_Dir (p : string) : string :=
  match drop_last_element p with
  | Some EmptyString => "/"
  | Some d => d
  | None => "."
  end.

(** The version tag of a tarsum string is what precedes the first [+]. *)
Fixpoint before_plus (s : string) : string :=
  match s with
  | EmptyString => EmptyString
  | String a rest =>
      if Ascii.eqb a "+"%char then EmptyString else String a (before_plus rest)
  end.

Definition example_GetVersionFromTarsum (s : string) : result tarsum.Version :=
  let tsv := before_plus s in
  if String.eqb tsv "tarsum" then Ok tarsum.Version0
  else if String.eqb tsv "tarsum.v1" then Ok tarsum.Version1
  else if String.eqb tsv "tarsum.dev" then Ok tarsum.VersionDev
  else Err (Errorf "tarsum: not a tarsum version").

Definition example_EmptyTar : digest.Digest :=
  "tarsum.v1+sha256:e3b0c44298fc1c149afbf4c8996fb92427ae41e4649b934ca495991b7852b855".

(** A stand-in for the archive digest: injective on contents, and the
    well-known constant on the empty content. *)
Definition example_digest (content : list byte) : digest.Digest :=
  match content with
  | [] => example_EmptyTar
  | _ => "tarsum.v1+sha256:" +:+ String.string_of_list_byte content
  end.

Definition exampleK : Collaborators :=
  {| pm_path := example_path;
     path_Dir := example_Dir;
     GetVersionFromTarsum := example_GetVersionFromTarsum;
     DigestTarSumV1EmptyTar := example_EmptyTar;
     Verified := λ dgst content, String.eqb dgst (example_digest content);
     FromTarArchive := λ content, Ok (example_digest content) |}.

(** A session of repository [library/app] with upload id [abc123]. *)
Definition scratch : string :=
  "/v2/repositories/library/app/_uploads/abc123/data".

Definition scratch_dir : string :=
  "/v2/repositories/library/app/_uploads/abc123".

Definition example_lw : layerWriter :=
  {| lw_layerStore := {| repository_Name := "library/app" |};
     uuid := "abc123";
     startedAt := {| Time.sec := 1420070400; Time.nsec := 0 |};
     lw_fileWriter := {| path := scratch |} |}.

Definition announce_finish : called storageE :=
  Called (Log Debug "(*layerWriter).Finish").

Definition announce_cancel : called storageE :=
  Called (Log Debug "(*layerWriter).Cancel").

Definition example_content : list byte := String.list_byte_of_string "layer".

Definition example_store (content : list byte) : mem :=
  {| files :=
       {[ "/v2/repositories/library/app/_uploads/abc123/data" := content ]};
     broken := [] |}.

(** The same session next to a blob and a link that another session of
    the repository committed earlier. *)
Definition example_shared_store : mem :=
  {| files :=
       {[ "/v2/repositories/library/app/_uploads/abc123/data" := example_content;
          "/v2/repositories/library/app/_uploads/abc123/startedat" :=
            String.list_byte_of_string "2015-01-01";
          "/v2/blobs/tarsum.v1+sha256:base/data" :=
            String.list_byte_of_string "base";
          "/v2/repositories/library/app/_layers/tarsum.v1+sha256:base/link" :=
            String.list_byte_of_string "tarsum.v1+sha256:base" ]};
     broken := [] |}.

(** A session that wrote nothing, on a backend that created no file. *)
Definition example_blank_store : mem := {| files := ∅; broken := [] |}.

(** The first store on a backend that fails every call on the session's
    scratch directory. *)
Definition example_failing_store : mem :=
  {| files :=
       {[ "/v2/repositories/library/app/_uploads/abc123/data" := example_content ]};
     broken := ["/v2/repositories/library/app/_uploads/abc123"] |}.

End inmemory.


(** A reference network for the sink: dialing succeeds on the reachable
    urls only, and every published batch is recorded. *)
Module network.
Import notifications.

Record net : Type := Build_net
  { reachable : list string; delivered : list grpcClient.Events.t }.

Definition grpc : handler sinkE net :=
  λ T c s,
    match c in sinkE T return T * net with
    | Dial url =>
        if bool_decide (url ∈ reachable s)
        then (Ok (grpcClient.Conn url), s)
        else (Err (OtherError "grpc: dial failed"), s)
    | Publish _ _ events =>
        ((Some grpcClient.MkResponse, None),
         {| reachable := reachable s;
            delivered := delivered s ++ [events] |})
    | ConnClose _ => (None, s)
    end.

Definition example_event (id : string) (t : Z) : Event.t :=
  {| Event.ID := id;
     Event.Timestamp := {| Time.sec := t; Time.nsec := 500 |};
     Event.Action := "push";
     Event.Target :=
       {| Target.Descriptor :=
            {| Descriptor.MediaType := "application/vnd.docker.container.image.rootfs.diff+x-gtar";
               Descriptor.Length := 5;
               Descriptor.Digest := "tarsum.v1+sha256:layer" |};
          Target.Repository := "library/app";
          Target.URL := "http://registry/v2/library/app/blobs/tarsum.v1+sha256:layer" |};
     Event.Request :=
       {| RequestRecord.ID := "req-1"; RequestRecord.Addr := "10.0.0.7";
          RequestRecord.Host := "registry"; RequestRecord.Method := "PUT";
          RequestRecord.UserAgent := "docker/1.5" |};
     Event.Actor := {| ActorRecord.Name := "alice" |};
     Event.Source :=
       {| SourceRecord.Addr := "registry:5000";
          SourceRecord.InstanceID := "i-1" |} |}.

End network.

(** ** Predicates on traces of the layer writer *)

Module trace.
Import storage.

Definition is_Move (c : called storageE) : bool :=
  match c with
  | Called (Move _ _) => true
  | _ => false
  end.

(** [mutates p c]: the call [c] writes, moves or deletes at path [p]. *)
Definition mutates (p : string) (c : called storageE) : bool :=
  match c with
  | Called (PutContent q _) => String.eqb p q
  | Called (Move a b) => String.eqb p a || String.eqb p b
  | Called (Delete q) => String.eqb p q
  | _ => false
  end.

(** The type switch on [storagedriver.PathNotFoundError]. *)
Definition not_found (e : error) : bool :=
  match e with
  | PathNotFoundError _ => true
  | _ => false
  end.

(** The number of [Move] calls in a trace. *)
Definition moves (t : list (called storageE)) : nat :=
  length (List.filter is_Move t).

(** [reads_only c]: the call [c] is none of the driver's mutations. *)
Definition reads_only (c : called storageE) : bool :=
  match c with
  | Called (PutContent _ _) | Called (Move _ _) | Called (Delete _) => false
  | _ => true
  end.

End trace.

(** What the layer writer relies on from a driver: a stat leaves the
    backend as it is, and a path that was just written, or was the
    destination of a move that succeeded, exists. *)
Class DriverContract {St} (h : handler storage.storageE St) : Prop := {
  stat_pure : ∀ p s, (h _ (storage.Stat p) s).2 = s;
  put_materializes : ∀ p b s s1,
    h _ (storage.PutContent p b) s = (None, s1) →
    ∃ fi, (h _ (storage.Stat p) s1).1 = Ok fi;
  move_materializes : ∀ src dst s s1,
    h _ (storage.Move src dst) s = (None, s1) →
    ∃ fi, (h _ (storage.Stat dst) s1).1 = Ok fi
}.

(** ** Further predicates on calls, and further sample collaborators *)

Module calls.
Import storage.

Definition is_Close (c : called storageE) : bool :=
  match c with
  | Called (fileWriter_Close _) => true
  | _ => false
  end.

Definition is_Put (c : called storageE) : bool :=
  match c with
  | Called (PutContent _ _) => true
  | _ => false
  end.

Definition is_Delete (c : called storageE) : bool :=
  match c with
  | Called (Delete _) => true
  | _ => false
  end.

End calls.

Module samples.
Import storage inmemory.

(** The reference collaborators with an archive reader that refuses any
    content that is not a whole number of 512-byte blocks. *)
Definition example_strictK : Collaborators :=
  {| pm_path := example_path;
     path_Dir := example_Dir;
     GetVersionFromTarsum := example_GetVersionFromTarsum;
     DigestTarSumV1EmptyTar := example_EmptyTar;
     Verified := λ dgst content, String.eqb dgst (example_digest content);
     FromTarArchive := λ content,
       if (length content mod 512 =? 0)%nat
       then Ok (example_digest content)
       else Err (Errorf "archive/tar: unexpected EOF") |}.


End samples.

(** * Results *)

(** ** Running call trees *)

Section RunFacts.
Context {E : Type → Type} {St : Type} (h : handler E St).

Lemma run_ret {A} (a : A) s : run h (mret a) s = (a, s, []).
Proof. reflexivity. Qed.

Lemma run_call {T} (c : E T) s :
  run h (call c) s = ((h _ c s).1, (h _ c s).2, [Called c]).
Proof. simpl. by destruct (h T c s). Qed.

Lemma run_bind {A B} (p : prog E A) (f : A → prog E B) s :
  run h (p ≫= f) s =
    let '(a, s1, t1) := run h p s in
    let '(b, s2, t2) := run h (f a) s1 in
    (b, s2, t1 ++ t2).
Proof.
  revert s. induction p as [a | T c k IH]; intros s.
  - unfold mbind, prog_bind. simpl.
    by destruct (run h (f a) s) as [[b s2] t2].
  - unfold mbind, prog_bind in *. simpl.
    destruct (h T c s) as [r s1]. rewrite IH.
    destruct (run h (k r) s1) as [[a s2] t1].
    by destruct (run h (f a) s2) as [[b s3] t2].
Qed.

(** The first call of a tree that starts with one. *)
Lemma run_call_bind {T B} (c : E T) (f : T → prog E B) s :
  run h (call c ≫= f) s =
    let '(b, s2, t2) := run h (f (h _ c s).1) (h _ c s).2 in
    (b, s2, Called c :: t2).
Proof. rewrite run_bind, run_call. reflexivity. Qed.

End RunFacts.

(** ** The notification sink *)

Section Sink.
Import notifications.
Context {St : Type} (h : handler sinkE St).

Lemma Write_loop_from (acc : list grpcClient.Event.t) (e : list Event.t) :
  foldl (λ events ev, events ++ [wire_event ev]) acc e
  = acc ++ map wire_event e.
Proof.
  revert acc. induction e as [| ev e IH]; intros acc; simpl.
  - by rewrite app_nil_r.
  - rewrite IH. by rewrite <- app_assoc.
Qed.

Lemma Write_loop_map (e : list Event.t) : Write_loop e = map wire_event e.
Proof. unfold Write_loop. by rewrite Write_loop_from. Qed.

Lemma run_Write (g : grpcSink) (e : list Event.t) s :
  run h (Write g e) s =
    let c := Publish (client g) Background
               {| grpcClient.Events.Events := Write_loop e |} in
    (((h _ c s).1).2, (h _ c s).2, [Called c]).
Proof. unfold Write. rewrite run_call_bind. reflexivity. Qed.

(** C8.  For a slice of n events, [Write] builds n wire records, in the
    order of the slice, each carrying every field of its source event
    (the timestamp as Unix seconds, the digest as its string, every
    message-typed block present), makes one [Publish] call with them and
    returns the error of that call. *)
Theorem Write_publishes_every_event (g : grpcSink) (e : list Event.t) s :
  ∃ wire : list grpcClient.Event.t,
    let c := Publish (client g) Background
               {| grpcClient.Events.Events := wire |} in
    run h (Write g e) s = (((h _ c s).1).2, (h _ c s).2, [Called c])
    ∧ length wire = length e
    ∧ ∀ (i : nat) (ev : Event.t), e !! i = Some ev →
        ∃ w, wire !! i = Some w
          ∧ grpcClient.Event.ID w = Event.ID ev
          ∧ grpcClient.Event.Timestamp w = Time.Unix (Event.Timestamp ev)
          ∧ grpcClient.Event.Action w = Event.Action ev
          ∧ grpcClient.Event.Target w = Some
              {| grpcClient.TargetMessage.Repository :=
                   Target.Repository (Event.Target ev);
                 grpcClient.TargetMessage.URL :=
                   Target.URL (Event.Target ev);
                 grpcClient.TargetMessage.Descriptor_ := Some
                   {| grpcClient.DescriptorMessage.MediaType :=
                        Descriptor.MediaType
                          (Target.Descriptor (Event.Target ev));
                      grpcClient.DescriptorMessage.Length :=
                        Descriptor.Length
                          (Target.Descriptor (Event.Target ev));
                      grpcClient.DescriptorMessage.Digest :=
                        digest.String
                          (Descriptor.Digest
                             (Target.Descriptor (Event.Target ev))) |} |}
          ∧ grpcClient.Event.Request w = Some
              {| grpcClient.RequestRecordMessage.ID :=
                   RequestRecord.ID (Event.Request ev);
                 grpcClient.RequestRecordMessage.Addr :=
                   RequestRecord.Addr (Event.Request ev);
                 grpcClient.RequestRecordMessage.Host :=
                   RequestRecord.Host (Event.Request ev);
                 grpcClient.RequestRecordMessage.Method :=
                   RequestRecord.Method (Event.Request ev);
                 grpcClient.RequestRecordMessage.UserAgent :=
                   RequestRecord.UserAgent (Event.Request ev) |}
          ∧ grpcClient.Event.Actor w = Some
              {| grpcClient.ActorRecordMessage.Name :=
                   ActorRecord.Name (Event.Actor ev) |}
          ∧ grpcClient.Event.Source w = Some
              {| grpcClient.SourceRecordMessage.Addr :=
                   SourceRecord.Addr (Event.Source ev);
                 grpcClient.SourceRecordMessage.InstanceID :=
                   SourceRecord.InstanceID (Event.Source ev) |}.
Proof.
  exists (Write_loop e). split; [apply run_Write |].
  rewrite Write_loop_map. split; [apply length_map |].
  intros i ev Hi. exists (wire_event ev). split.
  - by rewrite list_lookup_fmap, Hi.
  - repeat split.
Qed.

(** C9.  Neither the [closed] flag nor the mutex of the sink has any
    bearing on [Write]: with either of them set to anything the call tree
    is the same, a [Write] that follows a [Close] still makes its [Publish]
    call, and what [Write] returns is the error of that call, never an
    error of the sink's own. *)
Theorem Write_ignores_closed (g : grpcSink) (e : list Event.t) s :
  (∀ (b : bool) (m : Mutex),
      Write (set_closed b (set_mu m g)) e = Write g e
      ∧ Close (set_closed b (set_mu m g)) = Close g)
  ∧ (let send := Publish (client g) Background
                   {| grpcClient.Events.Events := Write_loop e |} in
     let s1 := (h _ (ConnClose (conn g)) s).2 in
     run h (Close g ≫= λ _, Write g e) s
     = (((h _ send s1).1).2, (h _ send s1).2,
        [Called (ConnClose (conn g)); Called send])).
Proof.
  split.
  - intros b m. split; reflexivity.
  - unfold Close. rewrite run_call_bind, run_Write. reflexivity.
Qed.

(** C10.  When the dial fails, [newGrpcSink] returns the nil sink, whatever
    the error was; nothing but the dial was attempted. *)
Theorem newGrpcSink_dial_failure (url : string) (err : error) s s1 :
  h _ (Dial url) s = (Err err, s1) →
  run h (newGrpcSink url) s = (None, s1, [Called (Dial url)]).
Proof.
  intros Hdial. unfold newGrpcSink. rewrite run_call_bind, Hdial. reflexivity.
Qed.

End Sink.

(** A sink that was closed still delivers: the batch reaches the receiver
    with its records in the order of the slice. *)
Example Write_after_Close_delivers :
  let s := {| network.reachable := ["events:443"];
              network.delivered := [] |} in
  let e := [network.example_event "e-1" 1420070400;
            network.example_event "e-2" 1420070460] in
  ∃ g, result_of (run network.grpc (notifications.newGrpcSink "events:443") s)
       = Some g
    ∧ notifications.closed g = false
    ∧ let r := run network.grpc
                 (notifications.Close g ≫= λ _, notifications.Write g e) s in
      result_of r = None
      ∧ (grpcClient.Event.ID <$>
           concat (grpcClient.Events.Events <$> network.delivered (state_of r)))
        = ["e-1"; "e-2"]
      ∧ (grpcClient.Event.Timestamp <$>
           concat (grpcClient.Events.Events <$> network.delivered (state_of r)))
        = [1420070400%Z; 1420070460%Z].
Proof. eexists. vm_compute. repeat split. Qed.

Lemma newGrpcSink_dial_failure_witness :
  run network.grpc (notifications.newGrpcSink "receiver:9000")
    {| network.reachable := ["events:443"]; network.delivered := [] |}
  = (None,
     {| network.reachable := ["events:443"]; network.delivered := [] |},
     [Called (notifications.Dial "receiver:9000")]).
Proof.
  apply (newGrpcSink_dial_failure network.grpc "receiver:9000"
           (OtherError "grpc: dial failed")).
  reflexivity.
Defined.

(** ** The layer writer *)

Section Upload.
Import storage.
Context `{K : Collaborators} {St : Type} (h : handler storageE St).

(** C1.  [Finish] is the announcement of the call in the log followed by
    validate, move, link and cleanup, in that order, each started in the
    state its predecessor left; the first of them that returns an error
    ends [Finish] with that error, in the state reached and with no further
    call made, so nothing done by the earlier phases is undone.  A cleanup
    that fails after a move and a link that succeeded makes [Finish] return
    the error of the cleanup.  When the four succeed, the layer is
    fetched. *)
Theorem Finish_runs_four_phases (lw : layerWriter) (dgst : digest.Digest) s :
  run h (Finish lw dgst) s =
    let announce := Log Debug "(*layerWriter).Finish" in
    let t0 := [Called announce] in
    let s0 := (h _ announce s).2 in
    let '(v, s1, t1) := run h (validateLayer lw dgst) s0 in
    match v with
    | Err err => (Err err, s1, t0 ++ t1)
    | Ok canonical =>
        let '(m, s2, t2) := run h (moveLayer lw canonical) s1 in
        match m with
        | Some err => (Err err, s2, t0 ++ t1 ++ t2)
        | None =>
            let '(l, s3, t3) := run h (linkLayer lw canonical) s2 in
            match l with
            | Some err => (Err err, s3, t0 ++ t1 ++ t2 ++ t3)
            | None =>
                let '(c, s4, t4) := run h (removeResources lw) s3 in
                match c with
                | Some err => (Err err, s4, t0 ++ t1 ++ t2 ++ t3 ++ t4)
                | None =>
                    ((h _ (Fetch canonical) s4).1,
                     (h _ (Fetch canonical) s4).2,
                     t0 ++ t1 ++ t2 ++ t3 ++ t4 ++ [Called (Fetch canonical)])
                end
            end
        end
    end.
Proof.
  unfold Finish. rewrite run_call_bind. cbv zeta.
  rewrite run_bind.
  destruct (run h (validateLayer lw dgst) _) as [[[canonical | err] s1] t1];
    [| by rewrite run_ret, app_nil_r].
  rewrite run_bind.
  destruct (run h (moveLayer lw canonical) s1) as [[[err |] s2] t2];
    [by rewrite run_ret, app_nil_r |].
  rewrite run_bind.
  destruct (run h (linkLayer lw canonical) s2) as [[[err |] s3] t3];
    [by rewrite run_ret, app_nil_r |].
  rewrite run_bind.
  destruct (run h (removeResources lw) s3) as [[[err |] s4] t4];
    [by rewrite run_ret, app_nil_r |].
  by rewrite run_call.
Qed.

(** *** The phases, one by one *)

Lemma run_validateLayer_unsupported lw dgst version s :
  GetVersionFromTarsum (digest.String dgst) = Ok version →
  version ≠ tarsum.Version1 →
  run h (validateLayer lw dgst) s
  = (Err (ErrLayerInvalidDigest dgst ErrLayerTarSumVersionUnsupported),
     s, []).
Proof.
  intros Hv Hne. unfold validateLayer. rewrite Hv.
  by destruct version.
Qed.

Lemma run_validateLayer_read lw dgst fr content s s1 s2 :
  GetVersionFromTarsum (digest.String dgst) = Ok tarsum.Version1 →
  h _ (newFileReader (path (lw_fileWriter lw))) s = (Ok fr, s1) →
  h _ (ReadAll fr) s1 = (Ok content, s2) →
  run h (validateLayer lw dgst) s
  = (match FromTarArchive content with
     | Err err => Err err
     | Ok canonical =>
         if Verified dgst content then Ok canonical
         else Err (ErrLayerInvalidDigest dgst
                     (Errorf "content does not match digest"))
     end,
     s2,
     [Called (newFileReader (path (lw_fileWriter lw))); Called (ReadAll fr)]).
Proof.
  intros Hv Hopen Hread. unfold validateLayer. rewrite Hv.
  rewrite run_call_bind, Hopen. cbn [fst snd].
  rewrite run_bind. unfold FromTarArchive_tee.
  rewrite run_call_bind, Hread. cbn [fst snd].
  destruct (FromTarArchive content) as [canonical | err]; [| reflexivity].
  by destruct (Verified dgst content).
Qed.

Lemma run_moveLayer lw dgst blobPath s :
  pm_path (blobDataPathSpec dgst) = Ok blobPath →
  run h (moveLayer lw dgst) s =
    let src := path (lw_fileWriter lw) in
    let warn := Log Warn
      "attempted to move zero-length content with non-zero digest" in
    match h _ (Stat blobPath) s with
    | (Ok _, s1) => (None, s1, [Called (Stat blobPath)])
    | (Err (PathNotFoundError _), s1) =>
        match h _ (Stat src) s1 with
        | (Ok _, s2) =>
            ((h _ (Move src blobPath) s2).1, (h _ (Move src blobPath) s2).2,
             [Called (Stat blobPath); Called (Stat src);
              Called (Move src blobPath)])
        | (Err (PathNotFoundError _), s2) =>
            if String.eqb dgst DigestTarSumV1EmptyTar
            then ((h _ (PutContent blobPath []) s2).1,
                  (h _ (PutContent blobPath []) s2).2,
                  [Called (Stat blobPath); Called (Stat src);
                   Called (PutContent blobPath [])])
            else let s3 := (h _ warn s2).2 in
                 ((h _ (Move src blobPath) s3).1,
                  (h _ (Move src blobPath) s3).2,
                  [Called (Stat blobPath); Called (Stat src); Called warn;
                   Called (Move src blobPath)])
        | (Err err, s2) =>
            (Some err, s2, [Called (Stat blobPath); Called (Stat src)])
        end
    | (Err err, s1) => (Some err, s1, [Called (Stat blobPath)])
    end.
Proof.
  intros Hpath. unfold moveLayer. rewrite Hpath. rewrite run_call_bind.
  destruct (h _ (Stat blobPath) s) as [[fi | err] s1]; cbn [fst snd];
    [reflexivity |].
  destruct err; try reflexivity.
  rewrite run_call_bind.
  destruct (h _ (Stat (path (lw_fileWriter lw))) s1) as [[fi | err] s2];
    cbn [fst snd]; [by rewrite run_call |].
  destruct err; try reflexivity.
  destruct (String.eqb dgst DigestTarSumV1EmptyTar).
  - by rewrite run_call.
  - by rewrite run_call_bind, run_call.
Qed.

Lemma run_linkLayer lw dgst layerLinkPath s :
  pm_path (layerLinkPathSpec (repository_Name (lw_layerStore lw)) dgst)
  = Ok layerLinkPath →
  run h (linkLayer lw dgst) s =
    let put := PutContent layerLinkPath (String.list_byte_of_string dgst) in
    ((h _ put s).1, (h _ put s).2, [Called put]).
Proof. intros Hpath. unfold linkLayer. rewrite Hpath. by rewrite run_call. Qed.

Lemma run_removeResources lw dataPath s :
  pm_path (uploadDataPathSpec (repository_Name (lw_layerStore lw)) (uuid lw))
  = Ok dataPath →
  run h (removeResources lw) s =
    let del := Delete (path_Dir dataPath) in
    let complain := Log Error "unable to delete layer upload resources" in
    match h _ del s with
    | (None, s1) => (None, s1, [Called del])
    | (Some err, s1) =>
        if trace.not_found err then (None, s1, [Called del])
        else (Some err, (h _ complain s1).2, [Called del; Called complain])
    end.
Proof.
  intros Hpath. unfold removeResources. rewrite Hpath. cbv zeta.
  rewrite run_call_bind.
  destruct (h _ (Delete (path_Dir dataPath)) s) as [[err |] s1];
    cbn [fst snd]; [| reflexivity].
  destruct err; cbn [trace.not_found]; try reflexivity;
    by rewrite run_call_bind.
Qed.

Lemma run_Cancel lw dataPath s :
  pm_path (uploadDataPathSpec (repository_Name (lw_layerStore lw)) (uuid lw))
  = Ok dataPath →
  run h (Cancel lw) s =
    let announce := Log Debug "(*layerWriter).Cancel" in
    let del := Delete (path_Dir dataPath) in
    let complain := Log Error "unable to delete layer upload resources" in
    let close := fileWriter_Close (lw_fileWriter lw) in
    let '(e, s1) := h _ del (h _ announce s).2 in
    if match e with None => true | Some err => trace.not_found err end
    then (None, (h _ close s1).2,
          [Called announce; Called del; Called close])
    else (e, (h _ complain s1).2,
          [Called announce; Called del; Called complain]).
Proof.
  intros Hpath. unfold Cancel. rewrite run_call_bind, run_bind.
  rewrite (run_removeResources _ _ _ Hpath). cbv zeta.
  destruct (h _ (Delete (path_Dir dataPath)) _) as [[err |] s1].
  - destruct (trace.not_found err); [by rewrite run_call_bind | reflexivity].
  - by rewrite run_call_bind.
Qed.

(** *** The gates of validation *)

(** C2.  A claimed digest whose tarsum version is any other than
    [Version1] makes [Finish] fail with the unsupported-version error right
    after the call was announced in the log: no reader is opened, nothing is
    read or hashed, and no stat, put, move or delete reaches the driver. *)
Theorem Finish_version_gate lw dgst version s :
  GetVersionFromTarsum (digest.String dgst) = Ok version →
  version ≠ tarsum.Version1 →
  run h (Finish lw dgst) s
  = (Err (ErrLayerInvalidDigest dgst ErrLayerTarSumVersionUnsupported),
     (h _ (Log Debug "(*layerWriter).Finish") s).2,
     [Called (Log Debug "(*layerWriter).Finish")]).
Proof.
  intros Hv Hne. unfold Finish. rewrite run_call_bind, run_bind.
  by rewrite (run_validateLayer_unsupported _ _ _ _ Hv Hne).
Qed.

(** C3, as amended.  With an accepted version, a reader that opens and a
    stream that is read to its end: when the verifier bound to the claimed
    digest does not verify the bytes read, [Finish] fails.  The error is the
    content-mismatch error when the bytes are an archive whose digest could
    be computed, and the error of the archive reader when they are not.
    Either way the trace shows the whole read before the failure and
    nothing after it, so no phase after validation runs (in particular no
    delete of the scratch directory), and the backend is in the state the
    read left it in. *)
Theorem Finish_unverified_content lw dgst fr content s s1 s2 :
  GetVersionFromTarsum (digest.String dgst) = Ok tarsum.Version1 →
  h _ (newFileReader (path (lw_fileWriter lw)))
      (h _ (Log Debug "(*layerWriter).Finish") s).2 = (Ok fr, s1) →
  h _ (ReadAll fr) s1 = (Ok content, s2) →
  Verified dgst content = false →
  let t := [Called (Log Debug "(*layerWriter).Finish");
            Called (newFileReader (path (lw_fileWriter lw)));
            Called (ReadAll fr)] in
  run h (Finish lw dgst) s
  = (Err (match FromTarArchive content with
          | Ok _ => ErrLayerInvalidDigest dgst
                      (Errorf "content does not match digest")
          | Err err => err
          end), s2, t)
  ∧ forallb trace.reads_only t = true.
Proof.
  intros Hv Hopen Hread Hverify t. split; [| reflexivity].
  unfold Finish. rewrite run_call_bind, run_bind.
  rewrite (run_validateLayer_read _ _ _ _ _ _ _ Hv Hopen Hread).
  rewrite Hverify.
  by destruct (FromTarArchive content) as [canonical | err].
Qed.

(** *** The commit phase *)

Lemma moveLayer_existing_blob lw dgst blobPath fi s s1 :
  pm_path (blobDataPathSpec dgst) = Ok blobPath →
  h _ (Stat blobPath) s = (Ok fi, s1) →
  run h (moveLayer lw dgst) s = (None, s1, [Called (Stat blobPath)]).
Proof.
  intros Hpath Hstat. rewrite (run_moveLayer _ _ _ _ Hpath). cbv zeta.
  by rewrite Hstat.
Qed.

Lemma moveLayer_at_most_one_move lw dgst s :
  (trace.moves (trace_of (run h (moveLayer lw dgst) s)) ≤ 1)%nat.
Proof.
  destruct (pm_path (blobDataPathSpec dgst)) as [blobPath | err] eqn:Hpath.
  - rewrite (run_moveLayer _ _ _ _ Hpath). cbv zeta.
    destruct (h _ (Stat blobPath) s) as [[fi | err] s1];
      [cbn; lia |].
    destruct err; try (cbn; lia).
    destruct (h _ (Stat (path (lw_fileWriter lw))) s1) as [[fi | err] s2];
      [cbn; lia |].
    destruct err; try (cbn; lia).
    destruct (String.eqb dgst DigestTarSumV1EmptyTar); cbn; lia.
  - unfold moveLayer. rewrite Hpath. cbn. lia.
Qed.

Lemma moveLayer_success_materializes `{!DriverContract h}
    lw dgst blobPath s s1 t1 :
  pm_path (blobDataPathSpec dgst) = Ok blobPath →
  run h (moveLayer lw dgst) s = (None, s1, t1) →
  ∃ fi, h _ (Stat blobPath) s1 = (Ok fi, s1).
Proof.
  intros Hpath Hrun.
  assert (Hpure : ∀ r s', (h _ (Stat blobPath) s').1 = r →
                          h _ (Stat blobPath) s' = (r, s')).
  { intros r s' Hr. pose proof (stat_pure blobPath s') as Hs.
    destruct (h _ (Stat blobPath) s') as [r' s'']. simpl in *. congruence. }
  rewrite (run_moveLayer _ _ _ _ Hpath) in Hrun. cbv zeta in Hrun.
  pose proof (stat_pure blobPath s) as Hs.
  destruct (h _ (Stat blobPath) s) as [[fi | err] s'] eqn:Hstat;
    simpl in Hs; subst s'.
  { inversion Hrun; subst. by exists fi. }
  destruct err; try discriminate.
  destruct (h _ (Stat (path (lw_fileWriter lw))) s) as [[fi | err] s2].
  { destruct (h _ (Move _ blobPath) s2) as [e s3] eqn:Hmove.
    inversion Hrun; subst.
    destruct (move_materializes _ _ _ _ Hmove) as [fi' Hfi].
    exists fi'. by apply Hpure. }
  destruct err; try discriminate.
  destruct (String.eqb dgst DigestTarSumV1EmptyTar).
  - destruct (h _ (PutContent blobPath []) s2) as [e s3] eqn:Hput.
    inversion Hrun; subst.
    destruct (put_materializes _ _ _ _ Hput) as [fi' Hfi].
    exists fi'. by apply Hpure.
  - cbv zeta in Hrun.
    destruct (h _ (Move _ blobPath) _) as [e s3] eqn:Hmove.
    inversion Hrun; subst.
    destruct (move_materializes _ _ _ _ Hmove) as [fi' Hfi].
    exists fi'. by apply Hpure.
Qed.

(** C4.  Once a blob exists at the path of the canonical digest,
    [moveLayer] is a stat and nothing else: it returns nil without a move,
    a put or a delete.  On a driver that honours its contract, a commit
    phase that succeeded therefore leaves a state in which running it again
    with the same digest is that no-op, and the two runs together contain
    at most one move. *)
Theorem moveLayer_idempotent lw dgst blobPath s :
  pm_path (blobDataPathSpec dgst) = Ok blobPath →
  (∀ fi s1, h _ (Stat blobPath) s = (Ok fi, s1) →
     run h (moveLayer lw dgst) s = (None, s1, [Called (Stat blobPath)]))
  ∧ (DriverContract h →
     ∀ s1 t1, run h (moveLayer lw dgst) s = (None, s1, t1) →
       let second := run h (moveLayer lw dgst) s1 in
       second = (None, s1, [Called (Stat blobPath)])
       ∧ (trace.moves (t1 ++ trace_of second) ≤ 1)%nat).
Proof.
  intros Hpath. split.
  - intros fi s1. by apply moveLayer_existing_blob.
  - intros Hcontract s1 t1 Hrun.
    destruct (moveLayer_success_materializes _ _ _ _ _ _ Hpath Hrun)
      as [fi Hstat].
    cbv zeta. rewrite (moveLayer_existing_blob _ _ _ _ _ _ Hpath Hstat).
    split; [reflexivity |].
    pose proof (moveLayer_at_most_one_move lw dgst s) as Hle.
    rewrite Hrun in Hle. unfold trace_of in *. simpl in *.
    unfold trace.moves in *. rewrite List.filter_app, length_app. simpl. lia.
Qed.

(** C5.  No blob at the destination and no scratch file: for the digest of
    the empty archive [moveLayer] puts a zero-length blob at the destination
    and returns what the put returns; for any other digest it writes a
    warning and goes on to the move, whose answer it returns.  A stat that
    fails with anything other than not-found, on the destination or on the
    scratch path, ends the phase with that error. *)
Theorem moveLayer_without_scratch lw dgst blobPath s :
  pm_path (blobDataPathSpec dgst) = Ok blobPath →
  let src := path (lw_fileWriter lw) in
  let warn := Log Warn
    "attempted to move zero-length content with non-zero digest" in
  (∀ p1 p2 s1 s2,
     h _ (Stat blobPath) s = (Err (PathNotFoundError p1), s1) →
     h _ (Stat src) s1 = (Err (PathNotFoundError p2), s2) →
     (dgst = DigestTarSumV1EmptyTar →
        run h (moveLayer lw dgst) s
        = ((h _ (PutContent blobPath []) s2).1,
           (h _ (PutContent blobPath []) s2).2,
           [Called (Stat blobPath); Called (Stat src);
            Called (PutContent blobPath [])]))
     ∧ (dgst ≠ DigestTarSumV1EmptyTar →
        run h (moveLayer lw dgst) s
        = ((h _ (Move src blobPath) (h _ warn s2).2).1,
           (h _ (Move src blobPath) (h _ warn s2).2).2,
           [Called (Stat blobPath); Called (Stat src); Called warn;
            Called (Move src blobPath)])))
  ∧ (∀ err s1,
       h _ (Stat blobPath) s = (Err err, s1) →
       trace.not_found err = false →
       run h (moveLayer lw dgst) s = (Some err, s1, [Called (Stat blobPath)]))
  ∧ (∀ p1 err s1 s2,
       h _ (Stat blobPath) s = (Err (PathNotFoundError p1), s1) →
       h _ (Stat src) s1 = (Err err, s2) →
       trace.not_found err = false →
       run h (moveLayer lw dgst) s
       = (Some err, s2, [Called (Stat blobPath); Called (Stat src)])).
Proof.
  intros Hpath src warn.
  pose proof (run_moveLayer lw dgst blobPath s Hpath) as Hrun.
  cbv zeta in Hrun. fold src in Hrun. rewrite Hrun. clear Hrun.
  split; [| split].
  - intros p1 p2 s1 s2 Hstat1 Hstat2. rewrite Hstat1, Hstat2. split.
    + intros Heq. by rewrite (proj2 (String.eqb_eq _ _) Heq).
    + intros Hne. by rewrite (proj2 (String.eqb_neq _ _) Hne).
  - intros err s1 Hstat Hnf. rewrite Hstat. by destruct err.
  - intros p1 err s1 s2 Hstat1 Hstat2 Hnf. rewrite Hstat1, Hstat2.
    by destruct err.
Qed.

(** *** Cancel, and calls that come after the end of a session *)

(** C6, as amended.  The layer writer has no terminal flag, and neither
    [Cancel] nor [Finish] looks at what was called before.  A [Cancel] that
    finds the scratch directory gone (the driver answers not-found, as after
    an earlier [Cancel] or a completed [Finish]) still issues the delete,
    closes the writer and returns nil; a [Finish] with an accepted version
    starts validation over by opening a reader on the scratch path, in
    whatever state it is called. *)
Theorem no_terminal_state_guard lw dataPath s :
  pm_path (uploadDataPathSpec (repository_Name (lw_layerStore lw)) (uuid lw))
  = Ok dataPath →
  let announce := Log Debug "(*layerWriter).Cancel" in
  let del := Delete (path_Dir dataPath) in
  let close := fileWriter_Close (lw_fileWriter lw) in
  (∀ p s1,
     h _ del (h _ announce s).2 = (Some (PathNotFoundError p), s1) →
     run h (Cancel lw) s
     = (None, (h _ close s1).2, [Called announce; Called del; Called close]))
  ∧ (∀ dgst,
       GetVersionFromTarsum (digest.String dgst) = Ok tarsum.Version1 →
       ∃ t, trace_of (run h (Finish lw dgst) s)
            = Called (Log Debug "(*layerWriter).Finish")
                :: Called (newFileReader (path (lw_fileWriter lw))) :: t).
Proof.
  intros Hpath announce del close. split.
  - intros p s1 Hdel. rewrite (run_Cancel _ _ _ Hpath). cbv zeta.
    fold announce del. by rewrite Hdel.
  - intros dgst Hv. unfold Finish. rewrite run_call_bind, run_bind.
    unfold validateLayer at 1. rewrite Hv. rewrite run_call_bind.
    destruct (run h _ _) as [[v s2] t2].
    destruct (run h _ s2) as [[r s3] t3]. by eexists.
Qed.

(** C7.  [Cancel] announces itself in the log and issues one driver call,
    the delete of the directory of the scratch path.  When the delete
    succeeds or reports not-found, [Cancel] closes the writer and returns
    nil; any other error of the delete is logged and returned.  In every
    case no call of [Cancel] writes, moves or deletes at a path other than
    that directory. *)
Theorem Cancel_removes_scratch_only lw dataPath e s s1 :
  pm_path (uploadDataPathSpec (repository_Name (lw_layerStore lw)) (uuid lw))
  = Ok dataPath →
  let announce := Log Debug "(*layerWriter).Cancel" in
  let del := Delete (path_Dir dataPath) in
  let close := fileWriter_Close (lw_fileWriter lw) in
  let complain := Log Error "unable to delete layer upload resources" in
  h _ del (h _ announce s).2 = (e, s1) →
  ((e = None ∨ ∃ p, e = Some (PathNotFoundError p)) →
     run h (Cancel lw) s
     = (None, (h _ close s1).2, [Called announce; Called del; Called close]))
  ∧ (∀ err, e = Some err → trace.not_found err = false →
       run h (Cancel lw) s
       = (Some err, (h _ complain s1).2,
          [Called announce; Called del; Called complain]))
  ∧ (∀ p, p ≠ path_Dir dataPath →
       forallb (λ c, negb (trace.mutates p c)) (trace_of (run h (Cancel lw) s))
       = true).
Proof.
  intros Hpath announce del close complain Hdel.
  pose proof (run_Cancel lw dataPath s Hpath) as Hrun. cbv zeta in Hrun.
  fold announce del close complain in Hrun. rewrite Hdel in Hrun.
  rewrite Hrun. clear Hrun. split; [| split].
  - intros [-> | [p ->]]; reflexivity.
  - intros err -> Hnf. by rewrite Hnf.
  - intros p Hne.
    assert (String.eqb p (path_Dir dataPath) = false) as Hneq
      by by apply String.eqb_neq.
    destruct (match e with None => true | Some err => trace.not_found err end);
      unfold trace_of; cbn; by rewrite Hneq.
Qed.

End Upload.

(** ** The reference backend *)

Section InMemory.
Import storage inmemory.
Context `{K : Collaborators}.

Lemma unavailable_set_files p m s :
  unavailable p (set_files m s) = unavailable p s.
Proof. reflexivity. Qed.

Lemma mem_Stat_file p b s :
  unavailable p s = false → files s !! p = Some b →
  ∃ fi, mem_Stat p s = Ok fi.
Proof. intros Hup Hfile. unfold mem_Stat. rewrite Hup, Hfile. by eexists. Qed.

Global Instance driver_contract : DriverContract driver.
Proof.
  split.
  - reflexivity.
  - intros p b s s1. cbn. unfold mem_PutContent.
    destruct (unavailable p s) eqn:Hup; [discriminate |].
    intros [= <-]. apply (mem_Stat_file p b); [done |].
    cbn. apply lookup_insert_eq.
  - intros src dst s s1. cbn. unfold mem_Move.
    destruct (unavailable src s) eqn:Hsrc; [discriminate |].
    destruct (unavailable dst s) eqn:Hdst; [discriminate |]. cbn.
    destruct (files s !! src) as [b |] eqn:Hfile; [| discriminate].
    intros [= <-]. apply (mem_Stat_file dst b); [done |].
    cbn. apply lookup_insert_eq.
Qed.

(** Validation only reads: on the reference backend it leaves the store as
    it found it, whatever its outcome. *)
Lemma validateLayer_inmemory_pure lw dgst (s : mem) :
  state_of (run driver (validateLayer lw dgst) s) = s
  ∧ forallb trace.reads_only (trace_of (run driver (validateLayer lw dgst) s))
    = true.
Proof.
  unfold validateLayer.
  destruct (GetVersionFromTarsum (digest.String dgst)) as [version | err];
    [| done].
  destruct version; try done.
  rewrite run_call_bind. cbn [driver fst snd].
  destruct (mem_newFileReader _ s) as [fr | err]; [| done].
  rewrite run_bind. unfold FromTarArchive_tee. rewrite run_call_bind.
  cbn [driver fst snd mem_ReadAll].
  destruct (FromTarArchive _) as [canonical | err]; [| done].
  by destruct (Verified dgst _).
Qed.

(** X16.  What the delete of [Cancel] does to the reference backend: everything
    at or below the directory of the scratch path is gone, everything else
    is as it was. *)
Lemma Cancel_inmemory_effect lw dataPath (s : mem) :
  pm_path (uploadDataPathSpec (repository_Name (lw_layerStore lw)) (uuid lw))
  = Ok dataPath →
  unavailable (path_Dir dataPath) s = false →
  let s1 := state_of (run driver (Cancel lw) s) in
  result_of (run driver (Cancel lw) s) = None
  ∧ (∀ k, covers (path_Dir dataPath) k = true → files s1 !! k = None)
  ∧ (∀ k, covers (path_Dir dataPath) k = false →
          files s1 !! k = files s !! k).
Proof.
  intros Hpath Hup. cbv zeta. rewrite (run_Cancel _ _ _ _ Hpath). cbn.
  unfold mem_Delete. rewrite Hup.
  destruct (present (path_Dir dataPath) (files s)) eqn:Hpresent; cbn.
  - split; [reflexivity |]. split; intros k Hk; unfold outside.
    + apply map_lookup_filter_None. right. intros x _. cbn. by rewrite Hk.
    + destruct (files s !! k) as [x |] eqn:Hfile.
      * by apply map_lookup_filter_Some.
      * apply map_lookup_filter_None. by left.
  - split; [reflexivity |]. split; intros k Hk; [| reflexivity].
    unfold present in Hpresent. apply negb_false_iff in Hpresent.
    apply bool_decide_eq_true in Hpresent.
    destruct (files s !! k) as [x |] eqn:Hfile; [| reflexivity].
    assert (subtree (path_Dir dataPath) (files s) !! k = Some x) as Hin
      by by apply map_lookup_filter_Some.
    rewrite Hpresent in Hin. by rewrite lookup_empty in Hin.
Qed.

End InMemory.

(** ** Sessions on the reference backend *)

Section Sessions.
Import storage inmemory.
#[local] Existing Instance exampleK.

(** A cleanup that fails after the commit: [Finish] returns the error of
    the delete, and the blob and its link are in place. *)
Example Finish_failed_cleanup_keeps_commit :
  let r := run driver (Finish example_lw (example_digest example_content))
             example_failing_store in
  result_of r = Err io_error
  ∧ files (state_of r) !! "/v2/blobs/tarsum.v1+sha256:layer/data"
    = Some example_content
  ∧ files (state_of r)
      !! "/v2/repositories/library/app/_layers/tarsum.v1+sha256:layer/link"
    = Some (String.list_byte_of_string "tarsum.v1+sha256:layer").
Proof. vm_compute. repeat split. Qed.

Lemma Finish_version_gate_witness :
  run driver (Finish example_lw "tarsum.dev+sha256:6c61796572")
    (example_store example_content)
  = (Err (ErrLayerInvalidDigest "tarsum.dev+sha256:6c61796572"
            ErrLayerTarSumVersionUnsupported),
     example_store example_content, [announce_finish]).
Proof.
  apply (Finish_version_gate driver example_lw
           "tarsum.dev+sha256:6c61796572" tarsum.VersionDev);
    [reflexivity | discriminate].
Defined.

Lemma Finish_unverified_content_witness :
  let t := [announce_finish; Called (newFileReader scratch);
            Called (ReadAll {| fr_path := scratch; fr_size := 5 |})] in
  run driver (Finish example_lw "tarsum.v1+sha256:other")
    (example_store example_content)
  = (Err (ErrLayerInvalidDigest "tarsum.v1+sha256:other"
            (Errorf "content does not match digest")),
     example_store example_content, t)
  ∧ forallb trace.reads_only t = true.
Proof.
  intros t.
  assert (GetVersionFromTarsum (digest.String "tarsum.v1+sha256:other")
          = Ok tarsum.Version1) as Hv by reflexivity.
  assert (driver _ (newFileReader (path (lw_fileWriter example_lw)))
            (driver _ (Log Debug "(*layerWriter).Finish")
               (example_store example_content)).2
          = (Ok {| fr_path := scratch; fr_size := 5 |},
             example_store example_content)) as Hopen by reflexivity.
  assert (driver _ (ReadAll {| fr_path := scratch; fr_size := 5 |})
            (example_store example_content)
          = (Ok example_content, example_store example_content)) as Hread
    by reflexivity.
  assert (Verified "tarsum.v1+sha256:other" example_content = false)
    as Hverify by reflexivity.
  exact (Finish_unverified_content driver example_lw "tarsum.v1+sha256:other"
           {| fr_path := scratch; fr_size := 5 |} example_content
           (example_store example_content) (example_store example_content)
           (example_store example_content) Hv Hopen Hread Hverify).
Defined.

Lemma moveLayer_idempotent_witness :
  let dgst := example_digest example_content in
  let blobPath := "/v2/blobs/tarsum.v1+sha256:layer/data" in
  let first := run driver (moveLayer example_lw dgst)
                 (example_store example_content) in
  let second := run driver (moveLayer example_lw dgst) (state_of first) in
  trace_of first
  = [Called (Stat blobPath); Called (Stat scratch);
     Called (Move scratch blobPath)]
  ∧ second = (None, state_of first, [Called (Stat blobPath)])
  ∧ (trace.moves (trace_of first ++ trace_of second) ≤ 1)%nat.
Proof.
  intros dgst blobPath first second. split; [reflexivity |].
  assert (pm_path (blobDataPathSpec dgst) = Ok blobPath) as Hpath
    by reflexivity.
  apply (proj2 (moveLayer_idempotent driver example_lw dgst blobPath
                  (example_store example_content) Hpath)
           driver_contract (state_of first) (trace_of first)).
  vm_compute. reflexivity.
Defined.

Lemma moveLayer_without_scratch_witness :
  let blobPath := "/v2/blobs/" +:+ example_EmptyTar +:+ "/data" in
  let r := run driver (moveLayer example_lw example_EmptyTar)
             example_blank_store in
  result_of r = None
  ∧ trace_of r = [Called (Stat blobPath); Called (Stat scratch);
                  Called (PutContent blobPath [])]
  ∧ files (state_of r) !! blobPath = Some [].
Proof.
  intros blobPath r.
  assert (pm_path (blobDataPathSpec example_EmptyTar) = Ok blobPath)
    as Hpath by reflexivity.
  destruct (moveLayer_without_scratch driver example_lw example_EmptyTar
              blobPath example_blank_store Hpath) as [Hmissing _].
  destruct (Hmissing blobPath scratch example_blank_store example_blank_store
              eq_refl eq_refl) as [Hempty _].
  unfold r. rewrite (Hempty eq_refl). vm_compute. repeat split.
Defined.

(** C6, as the claim states it, fails.  A second [Cancel] of a cancelled
    session returns nil after issuing its delete and its close again; and a
    second [Finish] of a finished session (here the empty archive) is
    honoured as well, running validation, the existence check, the link
    and the cleanup a second time. *)
Lemma terminal_state_not_enforced :
  let cancelled := run driver (Cancel example_lw)
                     (example_store example_content) in
  let again := run driver (Cancel example_lw) (state_of cancelled) in
  let finished := run driver (Finish example_lw example_EmptyTar)
                    example_blank_store in
  let refinished := run driver (Finish example_lw example_EmptyTar)
                      (state_of finished) in
  let blobPath := "/v2/blobs/" +:+ example_EmptyTar +:+ "/data" in
  let linkPath := "/v2/repositories/library/app/_layers/"
                    +:+ example_EmptyTar +:+ "/link" in
  (result_of cancelled = None
   ∧ result_of again = None
   ∧ trace_of again
     = [announce_cancel; Called (Delete scratch_dir);
        Called (fileWriter_Close (lw_fileWriter example_lw))])
  ∧ (result_of finished
     = Ok {| layer_Digest := example_EmptyTar; layer_Length := 0 |}
     ∧ result_of refinished
       = Ok {| layer_Digest := example_EmptyTar; layer_Length := 0 |}
     ∧ trace_of refinished
       = [announce_finish; Called (newFileReader scratch);
          Called (ReadAll {| fr_path := scratch; fr_size := 0 |});
          Called (Stat blobPath);
          Called (PutContent linkPath
                    (String.list_byte_of_string example_EmptyTar));
          Called (Delete scratch_dir);
          Called (Fetch example_EmptyTar)]).
Proof. vm_compute. repeat split. Qed.

Lemma no_terminal_state_guard_witness :
  let cancelled := state_of (run driver (Cancel example_lw)
                               (example_store example_content)) in
  run driver (Cancel example_lw) cancelled
  = (None, cancelled,
     [announce_cancel; Called (Delete scratch_dir);
      Called (fileWriter_Close (lw_fileWriter example_lw))])
  ∧ ∃ t, trace_of (run driver (Finish example_lw
                                 (example_digest example_content)) cancelled)
         = announce_finish :: Called (newFileReader scratch) :: t.
Proof.
  intros cancelled.
  assert (pm_path (uploadDataPathSpec "library/app" "abc123") = Ok scratch)
    as Hpath by reflexivity.
  destruct (no_terminal_state_guard driver example_lw scratch cancelled
              Hpath) as [Hcancel Hfinish].
  split.
  - apply (Hcancel scratch_dir cancelled). vm_compute. reflexivity.
  - apply (Hfinish (example_digest example_content)). reflexivity.
Defined.

Lemma Cancel_removes_scratch_only_witness :
  let r := run driver (Cancel example_lw) example_shared_store in
  r = (None, set_files (outside scratch_dir (files example_shared_store))
               example_shared_store,
       [announce_cancel; Called (Delete scratch_dir);
        Called (fileWriter_Close (lw_fileWriter example_lw))])
  ∧ forallb (λ c, negb (trace.mutates "/v2/blobs/tarsum.v1+sha256:base/data" c))
      (trace_of r) = true
  ∧ forallb (λ c, negb (trace.mutates
       "/v2/repositories/library/app/_layers/tarsum.v1+sha256:base/link" c))
      (trace_of r) = true.
Proof.
  intros r.
  assert (pm_path (uploadDataPathSpec "library/app" "abc123") = Ok scratch)
    as Hpath by reflexivity.
  assert (driver _ (Delete (path_Dir scratch)) example_shared_store
          = (None, set_files (outside scratch_dir (files example_shared_store))
                     example_shared_store)) as Hdel
    by (vm_compute; reflexivity).
  destruct (Cancel_removes_scratch_only driver example_lw scratch None
              example_shared_store
              (set_files (outside scratch_dir (files example_shared_store))
                 example_shared_store)
              Hpath Hdel) as (Hok & _ & Hframe).
  split; [| split].
  - apply Hok. by left.
  - apply Hframe. discriminate.
  - apply Hframe. discriminate.
Defined.

(** The store the cancelled session leaves: its own files are gone, the
    blob and the link of the other session are untouched. *)
Example Cancel_leaves_the_rest :
  let s1 := state_of (run driver (Cancel example_lw) example_shared_store) in
  map_to_list (files s1)
  = [("/v2/repositories/library/app/_layers/tarsum.v1+sha256:base/link",
      String.list_byte_of_string "tarsum.v1+sha256:base");
     ("/v2/blobs/tarsum.v1+sha256:base/data",
      String.list_byte_of_string "base")].
Proof. vm_compute. reflexivity. Qed.

End Sessions.

(** ** More on validation *)

Section Validation.
Import storage.
Context `{K : Collaborators} {St : Type} (h : handler storageE St).

Lemma run_validateLayer_parse_error lw dgst err s :
  GetVersionFromTarsum (digest.String dgst) = Err err →
  run h (validateLayer lw dgst) s = (Err err, s, []).
Proof. intros Hv. unfold validateLayer. by rewrite Hv. Qed.

Lemma run_validateLayer_version1 lw dgst s :
  GetVersionFromTarsum (digest.String dgst) = Ok tarsum.Version1 →
  run h (validateLayer lw dgst) s =
    let src := path (lw_fileWriter lw) in
    match h _ (newFileReader src) s with
    | (Err err, s1) => (Err err, s1, [Called (newFileReader src)])
    | (Ok fr, s1) =>
        match h _ (ReadAll fr) s1 with
        | (Err err, s2) =>
            (Err err, s2, [Called (newFileReader src); Called (ReadAll fr)])
        | (Ok content, s2) =>
            (match FromTarArchive content with
             | Err err => Err err
             | Ok canonical =>
                 if Verified dgst content then Ok canonical
                 else Err (ErrLayerInvalidDigest dgst
                             (Errorf "content does not match digest"))
             end, s2,
             [Called (newFileReader src); Called (ReadAll fr)])
        end
    end.
Proof.
  intros Hv. cbv zeta.
  destruct (h _ (newFileReader (path (lw_fileWriter lw))) s)
    as [[fr | err] s1] eqn:Hopen.
  - destruct (h _ (ReadAll fr) s1) as [[content | err] s2] eqn:Hread.
    + exact (run_validateLayer_read h lw dgst fr content s s1 s2 Hv Hopen Hread).
    + unfold validateLayer. rewrite Hv, run_call_bind, Hopen. cbn [fst snd].
      rewrite run_bind. unfold FromTarArchive_tee.
      by rewrite run_call_bind, Hread.
  - unfold validateLayer. by rewrite Hv, run_call_bind, Hopen.
Qed.


(** X2.  A validation that succeeds has opened the scratch file and read
    it in this very run, the bytes it read verified against the claimed
    digest, and the digest it returns is the canonical digest of those
    bytes; the claimed digest was of version [Version1]. *)
Theorem validateLayer_sound lw dgst canonical s s2 t :
  run h (validateLayer lw dgst) s = (Ok canonical, s2, t) →
  GetVersionFromTarsum (digest.String dgst) = Ok tarsum.Version1
  ∧ ∃ fr content s1,
      h _ (newFileReader (path (lw_fileWriter lw))) s = (Ok fr, s1)
      ∧ h _ (ReadAll fr) s1 = (Ok content, s2)
      ∧ FromTarArchive content = Ok canonical
      ∧ Verified dgst content = true
      ∧ t = [Called (newFileReader (path (lw_fileWriter lw)));
             Called (ReadAll fr)].
Proof.
  intros Hrun.
  destruct (GetVersionFromTarsum (digest.String dgst)) as [version | err]
    eqn:Hv.
  2: { by rewrite (run_validateLayer_parse_error _ _ _ _ Hv) in Hrun. }
  destruct version;
    try (by rewrite (run_validateLayer_unsupported h _ _ _ _ Hv) in Hrun).
  split; [reflexivity |].
  rewrite (run_validateLayer_version1 _ _ _ Hv) in Hrun. cbv zeta in Hrun.
  destruct (h _ (newFileReader _) s) as [[fr | err] s1]; [| discriminate].
  destruct (h _ (ReadAll fr) s1) as [[content | err] s2'] eqn:Hread;
    [| discriminate].
  destruct (FromTarArchive content) as [canonical' | err] eqn:Htar;
    [| discriminate].
  destruct (Verified dgst content) eqn:Hverified; [| discriminate].
  inversion Hrun; subst. by exists fr, content, s1.
Qed.

Lemma validateLayer_reads_only lw dgst s :
  forallb trace.reads_only (trace_of (run h (validateLayer lw dgst) s))
  = true.
Proof.
  destruct (GetVersionFromTarsum (digest.String dgst)) as [version | err]
    eqn:Hv.
  - destruct version;
      try (by rewrite (run_validateLayer_unsupported h _ _ _ _ Hv)).
    rewrite (run_validateLayer_version1 _ _ _ Hv). cbv zeta.
    destruct (h _ (newFileReader _) s) as [[fr | err] s1]; [| done].
    by destruct (h _ (ReadAll fr) s1) as [[content | err] s2].
  - by rewrite (run_validateLayer_parse_error _ _ _ _ Hv).
Qed.

Lemma run_Finish_validation_fails lw dgst err s s1 t1 :
  run h (validateLayer lw dgst) (h _ (Log Debug "(*layerWriter).Finish") s).2
  = (Err err, s1, t1) →
  run h (Finish lw dgst) s
  = (Err err, s1, Called (Log Debug "(*layerWriter).Finish") :: t1).
Proof.
  intros Hv. unfold Finish. rewrite run_call_bind, run_bind, Hv.
  by rewrite run_ret, app_nil_r.
Qed.

(** X3.  Whatever makes validation fail, [Finish] returns that error and
    has by then issued nothing but its log entry and the reads of
    validation: a failed validation never reaches a put, a move or a
    delete. *)
Theorem Finish_validation_failure_is_harmless lw dgst err s s1 t1 :
  run h (validateLayer lw dgst) (h _ (Log Debug "(*layerWriter).Finish") s).2
  = (Err err, s1, t1) →
  let r := run h (Finish lw dgst) s in
  result_of r = Err err
  ∧ state_of r = s1
  ∧ forallb trace.reads_only (trace_of r) = true.
Proof.
  intros Hv. cbv zeta. rewrite (run_Finish_validation_fails _ _ _ _ _ _ Hv).
  repeat split.
  pose proof (validateLayer_reads_only lw dgst
                (h _ (Log Debug "(*layerWriter).Finish") s).2) as Hreads.
  rewrite Hv in Hreads. exact Hreads.
Qed.

(** X4.  A claimed digest that the version parser rejects is returned to
    the caller with the parser's own error, before anything is opened or
    read. *)
Theorem Finish_unparsed_digest lw dgst err s :
  GetVersionFromTarsum (digest.String dgst) = Err err →
  run h (Finish lw dgst) s
  = (Err err, (h _ (Log Debug "(*layerWriter).Finish") s).2,
     [Called (Log Debug "(*layerWriter).Finish")]).
Proof.
  intros Hv. apply run_Finish_validation_fails.
  by apply run_validateLayer_parse_error.
Qed.

(** X5.  The archive error comes first: when the bytes read are not an
    archive the digest package accepts, [Finish] returns the error of the
    archive reader whether or not the verifier would have verified them;
    the content-mismatch error is never reported for such content. *)
Theorem Finish_archive_error_first lw dgst fr content err s s1 s2 :
  GetVersionFromTarsum (digest.String dgst) = Ok tarsum.Version1 →
  h _ (newFileReader (path (lw_fileWriter lw)))
      (h _ (Log Debug "(*layerWriter).Finish") s).2 = (Ok fr, s1) →
  h _ (ReadAll fr) s1 = (Ok content, s2) →
  FromTarArchive content = Err err →
  run h (Finish lw dgst) s
  = (Err err, s2,
     [Called (Log Debug "(*layerWriter).Finish");
      Called (newFileReader (path (lw_fileWriter lw)));
      Called (ReadAll fr)]).
Proof.
  intros Hv Hopen Hread Htar. apply run_Finish_validation_fails.
  rewrite (run_validateLayer_read h _ _ _ _ _ _ _ Hv Hopen Hread).
  by rewrite Htar.
Qed.

End Validation.

(** ** What the phases touch *)

Section Frames.
Import storage.
Context `{K : Collaborators} {St : Type} (h : handler storageE St).

(** A property of calls that holds of every call of every phase holds of
    every call of [Finish]. *)
Lemma Finish_trace_forallb (P : called storageE → bool) lw dgst s :
  P (Called (Log Debug "(*layerWriter).Finish")) = true →
  (∀ s', forallb P (trace_of (run h (validateLayer lw dgst) s')) = true) →
  (∀ d s', forallb P (trace_of (run h (moveLayer lw d) s')) = true) →
  (∀ d s', forallb P (trace_of (run h (linkLayer lw d) s')) = true) →
  (∀ s', forallb P (trace_of (run h (removeResources lw) s')) = true) →
  (∀ d, P (Called (Fetch d)) = true) →
  forallb P (trace_of (run h (Finish lw dgst) s)) = true.
Proof.
  intros Hlog Hvalidate Hmove Hlink Hremove Hfetch.
  unfold Finish. rewrite run_call_bind, run_bind.
  pose proof (Hvalidate (h _ (Log Debug "(*layerWriter).Finish") s).2) as Hv.
  destruct (run h (validateLayer lw dgst) _) as [[[canonical | err] s1] t1];
    unfold trace_of in *; cbn [snd] in *.
  2: { rewrite run_ret, app_nil_r. cbn. by rewrite Hlog, Hv. }
  rewrite run_bind. pose proof (Hmove canonical s1) as Hm.
  destruct (run h (moveLayer lw canonical) s1) as [[[err |] s2] t2];
    cbn [snd] in *.
  { rewrite run_ret, app_nil_r. cbn. by rewrite Hlog, forallb_app, Hv, Hm. }
  rewrite run_bind. pose proof (Hlink canonical s2) as Hl.
  destruct (run h (linkLayer lw canonical) s2) as [[[err |] s3] t3];
    cbn [snd] in *.
  { rewrite run_ret, app_nil_r. cbn.
    by rewrite Hlog, !forallb_app, Hv, Hm, Hl. }
  rewrite run_bind. pose proof (Hremove s3) as Hr.
  destruct (run h (removeResources lw) s3) as [[[err |] s4] t4];
    cbn [snd] in *.
  { rewrite run_ret, app_nil_r. cbn.
    by rewrite Hlog, !forallb_app, Hv, Hm, Hl, Hr. }
  rewrite run_call. cbn.
  rewrite Hlog, !forallb_app, Hv, Hm, Hl, Hr. cbn. by rewrite Hfetch.
Qed.

Lemma reads_only_not_mutates p (t : list (called storageE)) :
  forallb trace.reads_only t = true →
  forallb (λ c, negb (trace.mutates p c)) t = true.
Proof.
  induction t as [| c t IH]; [done |]. cbn.
  intros [Hc Ht]%andb_true_iff. rewrite (IH Ht), andb_true_r.
  destruct c as [T c]. by destruct c.
Qed.

Lemma moveLayer_mutates_only lw dgst p s :
  (∀ blobPath, pm_path (blobDataPathSpec dgst) = Ok blobPath → p ≠ blobPath) →
  p ≠ path (lw_fileWriter lw) →
  forallb (λ c, negb (trace.mutates p c))
    (trace_of (run h (moveLayer lw dgst) s)) = true.
Proof.
  intros Hblob Hsrc.
  destruct (pm_path (blobDataPathSpec dgst)) as [blobPath | err] eqn:Hpath.
  2: { unfold moveLayer. by rewrite Hpath. }
  assert (String.eqb p blobPath = false) as Hb
    by (apply String.eqb_neq; by apply Hblob).
  assert (String.eqb p (path (lw_fileWriter lw)) = false) as Hs
    by by apply String.eqb_neq.
  rewrite (run_moveLayer h _ _ _ _ Hpath). cbv zeta.
  destruct (h _ (Stat blobPath) s) as [[fi | err] s1]; [done |].
  destruct err; try done.
  destruct (h _ (Stat (path (lw_fileWriter lw))) s1) as [[fi | err] s2].
  { unfold trace_of. cbn. by rewrite Hb, Hs. }
  destruct err; try done.
  destruct (String.eqb dgst DigestTarSumV1EmptyTar);
    unfold trace_of; cbn; by rewrite Hb, ?Hs.
Qed.

Lemma linkLayer_mutates_only lw dgst p s :
  (∀ layerLinkPath,
     pm_path (layerLinkPathSpec (repository_Name (lw_layerStore lw)) dgst)
     = Ok layerLinkPath → p ≠ layerLinkPath) →
  forallb (λ c, negb (trace.mutates p c))
    (trace_of (run h (linkLayer lw dgst) s)) = true.
Proof.
  intros Hlink.
  destruct (pm_path (layerLinkPathSpec _ dgst)) as [layerLinkPath | err]
    eqn:Hpath.
  2: { unfold linkLayer. by rewrite Hpath. }
  rewrite (run_linkLayer h _ _ _ _ Hpath). unfold trace_of. cbn.
  by rewrite (proj2 (String.eqb_neq _ _) (Hlink _ eq_refl)).
Qed.

Lemma removeResources_mutates_only lw p s :
  (∀ dataPath,
     pm_path (uploadDataPathSpec (repository_Name (lw_layerStore lw))
                (uuid lw)) = Ok dataPath → p ≠ path_Dir dataPath) →
  forallb (λ c, negb (trace.mutates p c))
    (trace_of (run h (removeResources lw) s)) = true.
Proof.
  intros Hdir.
  destruct (pm_path (uploadDataPathSpec _ (uuid lw))) as [dataPath | err]
    eqn:Hpath.
  2: { unfold removeResources. by rewrite Hpath. }
  rewrite (run_removeResources h _ _ _ Hpath). cbv zeta.
  pose proof (proj2 (String.eqb_neq _ _) (Hdir _ eq_refl)) as Hne.
  destruct (h _ (Delete (path_Dir dataPath)) s) as [[err |] s1];
    [destruct (trace.not_found err) |]; unfold trace_of; cbn; by rewrite Hne.
Qed.

(** X6.  [Finish] writes, moves and deletes only at four kinds of path: the
    blob path of a digest, a link path of its own repository, its scratch
    path and the directory of its upload data path.  Any other path sees no
    mutating call, whatever the driver answers and however far [Finish]
    gets. *)
Theorem Finish_frame lw dgst p s :
  (∀ d blobPath, pm_path (blobDataPathSpec d) = Ok blobPath → p ≠ blobPath) →
  (∀ d layerLinkPath,
     pm_path (layerLinkPathSpec (repository_Name (lw_layerStore lw)) d)
     = Ok layerLinkPath → p ≠ layerLinkPath) →
  p ≠ path (lw_fileWriter lw) →
  (∀ dataPath,
     pm_path (uploadDataPathSpec (repository_Name (lw_layerStore lw))
                (uuid lw)) = Ok dataPath → p ≠ path_Dir dataPath) →
  forallb (λ c, negb (trace.mutates p c))
    (trace_of (run h (Finish lw dgst) s)) = true.
Proof.
  intros Hblob Hlink Hsrc Hdir. apply Finish_trace_forallb; try done.
  - intros s'. apply reads_only_not_mutates, validateLayer_reads_only.
  - intros d s'. apply moveLayer_mutates_only; [apply Hblob | done].
  - intros d s'. apply linkLayer_mutates_only, Hlink.
  - intros s'. by apply removeResources_mutates_only.
Qed.

(** X7.  The commit phase never deletes, and it writes a blob of its own
    making only for the digest of the empty archive: a put in its trace
    means the digest is [DigestTarSumV1EmptyTar].  For every other digest
    the only way content reaches the blob path is the move. *)
Theorem moveLayer_put_only_for_empty lw dgst s :
  let t := trace_of (run h (moveLayer lw dgst) s) in
  forallb (λ c, negb (calls.is_Delete c)) t = true
  ∧ (existsb calls.is_Put t = true → dgst = DigestTarSumV1EmptyTar).
Proof.
  cbv zeta.
  destruct (pm_path (blobDataPathSpec dgst)) as [blobPath | err] eqn:Hpath.
  2: { unfold moveLayer. rewrite Hpath. by split. }
  rewrite (run_moveLayer h _ _ _ _ Hpath). cbv zeta.
  destruct (h _ (Stat blobPath) s) as [[fi | err] s1]; [by split |].
  destruct err; try by split.
  destruct (h _ (Stat (path (lw_fileWriter lw))) s1) as [[fi | err] s2];
    [by split |].
  destruct err; try by split.
  destruct (String.eqb dgst DigestTarSumV1EmptyTar) eqn:Heq; [| by split].
  split; [done |]. intros _. by apply String.eqb_eq.
Qed.

(** X8.  Cleanup tolerates absence and nothing else.  With the upload data
    path known, [removeResources] issues one delete, of the directory of
    that path; it returns nil exactly when the delete succeeded or reported
    not-found, and otherwise logs and returns the error of the delete, so
    it never returns a not-found error itself. *)
Theorem removeResources_tolerates_absence lw dataPath s :
  pm_path (uploadDataPathSpec (repository_Name (lw_layerStore lw)) (uuid lw))
  = Ok dataPath →
  let r := run h (removeResources lw) s in
  let del := Delete (path_Dir dataPath) in
  let complain := Log Error "unable to delete layer upload resources" in
  (∀ p, result_of r ≠ Some (PathNotFoundError p))
  ∧ ((result_of r = None
      ∧ trace_of r = [Called del]
      ∧ ((h _ del s).1 = None ∨ ∃ p, (h _ del s).1 = Some (PathNotFoundError p)))
     ∨ (∃ err, result_of r = Some err
        ∧ (h _ del s).1 = Some err
        ∧ trace_of r = [Called del; Called complain])).
Proof.
  intros Hpath. cbv zeta. rewrite (run_removeResources h _ _ _ Hpath).
  cbv zeta.
  destruct (h _ (Delete (path_Dir dataPath)) s) as [[err |] s1]; cbn.
  - destruct (trace.not_found err) eqn:Hnf; cbn.
    + split; [done |]. left. repeat split. right.
      destruct err; try discriminate. by eexists.
    + split; [| right; by exists err].
      intros p [= ->]. discriminate.
  - split; [done |]. left. repeat split. by left.
Qed.

(** X9.  [Cancel] closes the file writer exactly when it returns nil: when
    the path mapper or the delete fails, the error is returned and the
    writer is left open. *)
Theorem Cancel_closes_iff_nil lw s :
  let r := run h (Cancel lw) s in
  existsb calls.is_Close (trace_of r)
  = match result_of r with None => true | Some _ => false end.
Proof.
  cbv zeta.
  destruct (pm_path (uploadDataPathSpec (repository_Name (lw_layerStore lw))
                       (uuid lw))) as [dataPath | err] eqn:Hpath.
  - rewrite (run_Cancel h _ _ _ Hpath). cbv zeta.
    destruct (h _ (Delete (path_Dir dataPath)) _) as [[err |] s1];
      [| done].
    by destruct (trace.not_found err).
  - unfold Cancel, removeResources. rewrite Hpath.
    by rewrite run_call_bind, run_bind, run_ret, run_ret.
Qed.

End Frames.

(** ** Whole sessions on the reference backend *)

Section Commit.
Import storage inmemory.
Context `{K : Collaborators}.

Lemma absent_lookup p (m : gmap string (list byte)) :
  present p m = false → m !! p = None.
Proof.
  unfold present. intros Hp%negb_false_iff%bool_decide_eq_true.
  destruct (m !! p) as [x |] eqn:Hfile; [| reflexivity].
  assert (subtree p m !! p = Some x) as Hin.
  { apply map_lookup_filter_Some. split; [done |]. cbn.
    unfold covers. by rewrite String.eqb_refl. }
  rewrite Hp in Hin. by rewrite lookup_empty in Hin.
Qed.

Lemma mem_Delete_effect p (s : mem) :
  unavailable p s = false →
  let r := mem_Delete p s in
  (r.1 = None ∨ r.1 = Some (PathNotFoundError p))
  ∧ (∀ k, covers p k = true → files r.2 !! k = None)
  ∧ (∀ k, covers p k = false → files r.2 !! k = files s !! k).
Proof.
  intros Hup. cbv zeta. unfold mem_Delete. rewrite Hup.
  destruct (present p (files s)) eqn:Hpresent; cbn.
  - split; [by left |]. split; intros k Hk; unfold outside.
    + apply map_lookup_filter_None. right. intros x _. cbn. by rewrite Hk.
    + destruct (files s !! k) as [x |] eqn:Hfile.
      * by apply map_lookup_filter_Some.
      * apply map_lookup_filter_None. by left.
  - split; [by right |]. split; intros k Hk; [| reflexivity].
    apply negb_false_iff, bool_decide_eq_true in Hpresent.
    destruct (files s !! k) as [x |] eqn:Hfile; [| reflexivity].
    assert (subtree p (files s) !! k = Some x) as Hin
      by by apply map_lookup_filter_Some.
    rewrite Hpresent in Hin. by rewrite lookup_empty in Hin.
Qed.

(** X10.  The link is the digest, written out: on the reference backend a
    [linkLayer] that finds its path available returns nil, the link file
    then holds bytes that read back as the digest, every other path is as
    it was, and linking the same digest again changes nothing. *)
Theorem linkLayer_inmemory_roundtrip lw dgst layerLinkPath (s : mem) :
  pm_path (layerLinkPathSpec (repository_Name (lw_layerStore lw)) dgst)
  = Ok layerLinkPath →
  unavailable layerLinkPath s = false →
  let r := run driver (linkLayer lw dgst) s in
  result_of r = None
  ∧ String.string_of_list_byte <$> files (state_of r) !! layerLinkPath
    = Some dgst
  ∧ (∀ k, k ≠ layerLinkPath → files (state_of r) !! k = files s !! k)
  ∧ state_of (run driver (linkLayer lw dgst) (state_of r)) = state_of r.
Proof.
  intros Hpath Hup. cbv zeta. rewrite !(run_linkLayer driver _ _ _ _ Hpath).
  cbv zeta. unfold result_of, state_of. cbn. unfold mem_PutContent.
  rewrite Hup. cbn. rewrite unavailable_set_files, Hup. cbn.
  split; [reflexivity |]. split; [| split].
  - rewrite lookup_insert_eq. cbn.
    by rewrite String.string_of_list_byte_of_string.
  - intros k Hne. by rewrite lookup_insert_ne.
  - unfold set_files. cbn. by rewrite insert_insert_eq.
Qed.

(** The first three phases of a [Finish] whose content verifies and whose
    blob is not there yet. *)
Lemma inmemory_commit_phases lw dgst canonical content
    blobPath layerLinkPath (s : mem) :
  let src := path (lw_fileWriter lw) in
  GetVersionFromTarsum (digest.String dgst) = Ok tarsum.Version1 →
  files s !! src = Some content →
  FromTarArchive content = Ok canonical →
  Verified dgst content = true →
  pm_path (blobDataPathSpec canonical) = Ok blobPath →
  pm_path (layerLinkPathSpec (repository_Name (lw_layerStore lw)) canonical)
  = Ok layerLinkPath →
  present blobPath (files s) = false →
  unavailable src s = false →
  unavailable blobPath s = false →
  unavailable layerLinkPath s = false →
  let s2 := set_files (<[blobPath := content]> (delete src (files s))) s in
  let s3 := set_files (<[layerLinkPath := String.list_byte_of_string canonical]>
                         (files s2)) s2 in
  (∃ t1, run driver (validateLayer lw dgst) s = (Ok canonical, s, t1))
  ∧ (∃ t2, run driver (moveLayer lw canonical) s = (None, s2, t2))
  ∧ (∃ t3, run driver (linkLayer lw canonical) s2 = (None, s3, t3)).
Proof.
  intros src Hv Hfile Htar Hverified Hblob Hlink Hfresh Hsrc Hbp Hlp s2 s3.
  subst s2 s3. split; [| split].
  - eexists.
    rewrite (run_validateLayer_read driver lw dgst
               {| fr_path := src; fr_size := Z.of_nat (length content) |}
               content s s s Hv).
    + by rewrite Htar, Hverified.
    + cbn. unfold mem_newFileReader. fold src. by rewrite Hsrc, Hfile.
    + cbn. unfold mem_ReadAll. cbn. by rewrite Hfile.
  - eexists. rewrite (run_moveLayer driver _ _ _ _ Hblob). cbv zeta.
    fold src. cbn. unfold mem_Stat.
    rewrite Hbp, (absent_lookup _ _ Hfresh), Hfresh, Hsrc, Hfile.
    unfold mem_Move. by rewrite Hsrc, Hbp, Hfile.
  - eexists. rewrite (run_linkLayer driver _ _ _ _ Hlink). cbv zeta. cbn.
    unfold mem_PutContent. by rewrite unavailable_set_files, Hlp.
Qed.

(** X11.  A [Finish] that commits.  On the reference backend, with the
    paths of the session available, scratch content that verifies, no blob
    at the canonical path yet, and blob and link paths that lie outside the
    scratch directory: [Finish] returns the layer of the canonical digest
    with the length of the content, the blob path holds the content, the
    link path holds the canonical digest, and nothing is left at or below
    the scratch directory. *)
Theorem Finish_inmemory_commits lw dgst canonical content
    blobPath layerLinkPath dataPath (s : mem) :
  let src := path (lw_fileWriter lw) in
  let dir := path_Dir dataPath in
  GetVersionFromTarsum (digest.String dgst) = Ok tarsum.Version1 →
  files s !! src = Some content →
  FromTarArchive content = Ok canonical →
  Verified dgst content = true →
  pm_path (blobDataPathSpec canonical) = Ok blobPath →
  pm_path (layerLinkPathSpec (repository_Name (lw_layerStore lw)) canonical)
  = Ok layerLinkPath →
  pm_path (uploadDataPathSpec (repository_Name (lw_layerStore lw)) (uuid lw))
  = Ok dataPath →
  present blobPath (files s) = false →
  unavailable src s = false →
  unavailable blobPath s = false →
  unavailable layerLinkPath s = false →
  unavailable dir s = false →
  blobPath ≠ layerLinkPath →
  covers dir blobPath = false →
  covers dir layerLinkPath = false →
  let r := run driver (Finish lw dgst) s in
  result_of r
  = Ok {| layer_Digest := canonical;
          layer_Length := Z.of_nat (length content) |}
  ∧ files (state_of r) !! blobPath = Some content
  ∧ files (state_of r) !! layerLinkPath
    = Some (String.list_byte_of_string canonical)
  ∧ (∀ k, covers dir k = true → files (state_of r) !! k = None).
Proof.
  intros src dir Hv Hfile Htar Hverified Hblob Hlink Hdata Hfresh
    Hsrc Hbp Hlp Hdir Hne Hout_blob Hout_link.
  destruct (inmemory_commit_phases lw dgst canonical content blobPath
              layerLinkPath s Hv Hfile Htar Hverified Hblob Hlink Hfresh
              Hsrc Hbp Hlp) as ((t1 & Hvalidate) & (t2 & Hmove) & (t3 & Hput)).
  cbv zeta. unfold Finish. rewrite run_call_bind. cbn [driver fst snd].
  rewrite run_bind, Hvalidate, run_bind, Hmove, run_bind, Hput, run_bind.
  rewrite (run_removeResources driver _ _ _ Hdata). cbv zeta.
  cbn [driver]. fold src dir.
  set (s3 := set_files _ (set_files _ s)).
  destruct (mem_Delete_effect dir s3 Hdir) as (Hres & Hgone & Hkept).
  assert (files s3 !! blobPath = Some content) as Hblob3.
  { subst s3. cbn. by rewrite lookup_insert_ne, lookup_insert_eq. }
  assert (files s3 !! layerLinkPath
          = Some (String.list_byte_of_string canonical)) as Hlink3.
  { subst s3. cbn. by rewrite lookup_insert_eq. }
  destruct (mem_Delete dir s3) as [e s4]. cbn [fst snd] in *.
  assert (files s4 !! blobPath = Some content) as Hblob4
    by by rewrite Hkept.
  assert (files s4 !! layerLinkPath
          = Some (String.list_byte_of_string canonical)) as Hlink4
    by by rewrite Hkept.
  destruct Hres as [-> | ->]; cbn [trace.not_found];
    rewrite run_call; unfold result_of, state_of; cbn;
    unfold mem_Fetch; rewrite Hblob, Hblob4; by repeat split.
Qed.

(** X12.  The commit outlives a failed cleanup.  In the same situation but
    with a backend that fails on the scratch directory, [Finish] returns
    the backend error of the delete, and yet the blob holds the content and
    the link holds the canonical digest. *)
Theorem Finish_inmemory_failed_cleanup lw dgst canonical content
    blobPath layerLinkPath dataPath (s : mem) :
  let src := path (lw_fileWriter lw) in
  let dir := path_Dir dataPath in
  GetVersionFromTarsum (digest.String dgst) = Ok tarsum.Version1 →
  files s !! src = Some content →
  FromTarArchive content = Ok canonical →
  Verified dgst content = true →
  pm_path (blobDataPathSpec canonical) = Ok blobPath →
  pm_path (layerLinkPathSpec (repository_Name (lw_layerStore lw)) canonical)
  = Ok layerLinkPath →
  pm_path (uploadDataPathSpec (repository_Name (lw_layerStore lw)) (uuid lw))
  = Ok dataPath →
  present blobPath (files s) = false →
  unavailable src s = false →
  unavailable blobPath s = false →
  unavailable layerLinkPath s = false →
  unavailable dir s = true →
  blobPath ≠ layerLinkPath →
  let r := run driver (Finish lw dgst) s in
  result_of r = Err io_error
  ∧ files (state_of r) !! blobPath = Some content
  ∧ files (state_of r) !! layerLinkPath
    = Some (String.list_byte_of_string canonical).
Proof.
  intros src dir Hv Hfile Htar Hverified Hblob Hlink Hdata Hfresh
    Hsrc Hbp Hlp Hdir Hne.
  destruct (inmemory_commit_phases lw dgst canonical content blobPath
              layerLinkPath s Hv Hfile Htar Hverified Hblob Hlink Hfresh
              Hsrc Hbp Hlp) as ((t1 & Hvalidate) & (t2 & Hmove) & (t3 & Hput)).
  cbv zeta. unfold Finish. rewrite run_call_bind. cbn [driver fst snd].
  rewrite run_bind, Hvalidate, run_bind, Hmove, run_bind, Hput, run_bind.
  rewrite (run_removeResources driver _ _ _ Hdata). cbv zeta.
  cbn [driver]. fold src dir. unfold mem_Delete.
  rewrite !unavailable_set_files, Hdir. cbn [trace.not_found io_error].
  rewrite run_ret. unfold result_of, state_of. cbn.
  split; [reflexivity |].
  by rewrite lookup_insert_ne, !lookup_insert_eq.
Qed.

End Commit.

(** ** More on the sink *)

Section SinkLifecycle.
Import notifications.
Context {St : Type} (h : handler sinkE St).

(** X13.  A sink that [newGrpcSink] returns is bound to the connection the
    dial produced: it starts with [closed] false and the mutex unlocked,
    [Close] closes that very connection, and [Write] publishes through a
    client made from it. *)
Theorem newGrpcSink_binds_dialed_connection
    (target : string) (cc : grpcClient.ClientConn) (e : list Event.t) s s1 :
  h _ (Dial target) s = (Ok cc, s1) →
  ∃ g, run h (newGrpcSink target) s = (Some g, s1, [Called (Dial target)])
     ∧ url g = target ∧ closed g = false ∧ mu g = Unlocked
     ∧ trace_of (run h (Close g) s1) = [Called (ConnClose cc)]
     ∧ trace_of (run h (Write g e) s1)
       = [Called (Publish (grpcClient.NewEventReceiverClient cc) Background
                    {| grpcClient.Events.Events := map wire_event e |})].
Proof.
  intros Hdial. eexists. split.
  - unfold newGrpcSink. rewrite run_call_bind, Hdial. reflexivity.
  - repeat split.
    + unfold Close. by rewrite run_call.
    + by rewrite run_Write, Write_loop_map.
Qed.

End SinkLifecycle.

(** X14.  What the wire record keeps.  Two events yield the same wire
    record exactly when they agree on every field but the nanoseconds of
    the timestamp: the record determines the identifier, the seconds, the
    action, the target, the request, the actor and the source, and the
    sub-second part of the timestamp is the one thing [Write] drops. *)
Theorem wire_event_eq_iff (a b : notifications.Event.t) :
  notifications.wire_event a = notifications.wire_event b
  ↔ notifications.Event.ID a = notifications.Event.ID b
    ∧ Time.sec (notifications.Event.Timestamp a)
      = Time.sec (notifications.Event.Timestamp b)
    ∧ notifications.Event.Action a = notifications.Event.Action b
    ∧ notifications.Event.Target a = notifications.Event.Target b
    ∧ notifications.Event.Request a = notifications.Event.Request b
    ∧ notifications.Event.Actor a = notifications.Event.Actor b
    ∧ notifications.Event.Source a = notifications.Event.Source b.
Proof.
  destruct a as [ida [seca nseca] acta [[mta lna dga] repa urla]
                   [rida addra hosta metha uaa] [namea] [saddra insta]].
  destruct b as [idb [secb nsecb] actb [[mtb lnb dgb] repb urlb]
                   [ridb addrb hostb methb uab] [nameb] [saddrb instb]].
  unfold notifications.wire_event, digest.String, Time.Unix. cbn. split.
  - intros [= -> -> -> -> -> -> -> -> -> -> -> -> -> -> -> ->].
    by repeat split.
  - intros (-> & -> & -> & [= -> -> -> -> ->] & [= -> -> -> -> ->]
            & [= ->] & [= -> ->]).
    reflexivity.
Qed.

(** ** Further sessions on the reference backend *)

Section MoreSessions.
Import storage inmemory.
#[local] Existing Instance exampleK.

Lemma validateLayer_sound_witness :
  GetVersionFromTarsum (digest.String (example_digest example_content))
  = Ok tarsum.Version1
  ∧ ∃ fr content s1,
      driver _ (newFileReader (path (lw_fileWriter example_lw)))
        (example_store example_content) = (Ok fr, s1)
      ∧ driver _ (ReadAll fr) s1 = (Ok content, example_store example_content)
      ∧ FromTarArchive content = Ok (example_digest example_content)
      ∧ Verified (example_digest example_content) content = true
      ∧ [Called (newFileReader scratch);
         Called (ReadAll {| fr_path := scratch; fr_size := 5 |})]
        = [Called (newFileReader (path (lw_fileWriter example_lw)));
           Called (ReadAll fr)].
Proof.
  apply (validateLayer_sound driver example_lw
           (example_digest example_content) (example_digest example_content)
           (example_store example_content) (example_store example_content)
           [Called (newFileReader scratch);
            Called (ReadAll {| fr_path := scratch; fr_size := 5 |})]).
  reflexivity.
Defined.

Lemma Finish_validation_failure_is_harmless_witness :
  let r := run driver (Finish example_lw "tarsum.v1+sha256:other")
             (example_store example_content) in
  result_of r
  = Err (ErrLayerInvalidDigest "tarsum.v1+sha256:other"
           (Errorf "content does not match digest"))
  ∧ state_of r = example_store example_content
  ∧ forallb trace.reads_only (trace_of r) = true.
Proof.
  apply (Finish_validation_failure_is_harmless driver example_lw
           "tarsum.v1+sha256:other" _ (example_store example_content)
           (example_store example_content)
           [Called (newFileReader scratch);
            Called (ReadAll {| fr_path := scratch; fr_size := 5 |})]).
  reflexivity.
Defined.

Lemma Finish_unparsed_digest_witness :
  run driver (Finish example_lw "sha256:6c61796572")
    (example_store example_content)
  = (Err (Errorf "tarsum: not a tarsum version"),
     example_store example_content, [announce_finish]).
Proof.
  apply (Finish_unparsed_digest driver example_lw "sha256:6c61796572").
  reflexivity.
Defined.

Lemma Finish_frame_witness :
  forallb
    (λ c, negb (trace.mutates
       "/v2/repositories/library/db/_layers/tarsum.v1+sha256:base/link" c))
    (trace_of (run driver (Finish example_lw (example_digest example_content))
                 (example_store example_content)))
  = true.
Proof.
  apply (Finish_frame driver example_lw (example_digest example_content)).
  - intros d blobPath [= <-]. simpl. discriminate.
  - intros d layerLinkPath [= <-]. simpl. discriminate.
  - discriminate.
  - intros dataPath [= <-]. discriminate.
Defined.

Lemma removeResources_tolerates_absence_witness :
  let r := run driver (removeResources example_lw) example_blank_store in
  let del := Delete scratch_dir in
  let complain := Log Error "unable to delete layer upload resources" in
  (∀ p, result_of r ≠ Some (PathNotFoundError p))
  ∧ ((result_of r = None
      ∧ trace_of r = [Called del]
      ∧ ((driver _ del example_blank_store).1 = None
         ∨ ∃ p, (driver _ del example_blank_store).1
                = Some (PathNotFoundError p)))
     ∨ (∃ err, result_of r = Some err
        ∧ (driver _ del example_blank_store).1 = Some err
        ∧ trace_of r = [Called del; Called complain])).
Proof.
  assert (pm_path (uploadDataPathSpec "library/app" "abc123") = Ok scratch)
    as Hpath by reflexivity.
  exact (removeResources_tolerates_absence driver example_lw scratch
           example_blank_store Hpath).
Defined.

Lemma linkLayer_inmemory_roundtrip_witness :
  let linkPath :=
    "/v2/repositories/library/app/_layers/tarsum.v1+sha256:layer/link" in
  let r := run driver (linkLayer example_lw "tarsum.v1+sha256:layer")
             example_shared_store in
  result_of r = None
  ∧ String.string_of_list_byte <$> files (state_of r) !! linkPath
    = Some "tarsum.v1+sha256:layer"
  ∧ (∀ k, k ≠ linkPath →
          files (state_of r) !! k = files example_shared_store !! k)
  ∧ state_of (run driver (linkLayer example_lw "tarsum.v1+sha256:layer")
                (state_of r)) = state_of r.
Proof.
  intros linkPath.
  assert (pm_path (layerLinkPathSpec "library/app" "tarsum.v1+sha256:layer")
          = Ok linkPath) as Hpath by reflexivity.
  exact (linkLayer_inmemory_roundtrip example_lw "tarsum.v1+sha256:layer"
           linkPath example_shared_store Hpath eq_refl).
Defined.

Lemma Finish_inmemory_commits_witness :
  let r := run driver (Finish example_lw (example_digest example_content))
             example_shared_store in
  result_of r
  = Ok {| layer_Digest := "tarsum.v1+sha256:layer"; layer_Length := 5 |}
  ∧ files (state_of r) !! "/v2/blobs/tarsum.v1+sha256:layer/data"
    = Some example_content
  ∧ files (state_of r)
      !! "/v2/repositories/library/app/_layers/tarsum.v1+sha256:layer/link"
    = Some (String.list_byte_of_string "tarsum.v1+sha256:layer")
  ∧ (∀ k, covers scratch_dir k = true → files (state_of r) !! k = None).
Proof.
  cbv zeta. change 5%Z with (Z.of_nat (length example_content)).
  change scratch_dir with (path_Dir scratch).
  assert (pm_path (blobDataPathSpec "tarsum.v1+sha256:layer")
          = Ok "/v2/blobs/tarsum.v1+sha256:layer/data") as Hblob
    by reflexivity.
  assert (pm_path (layerLinkPathSpec "library/app" "tarsum.v1+sha256:layer")
          = Ok "/v2/repositories/library/app/_layers/tarsum.v1+sha256:layer/link")
    as Hlink by reflexivity.
  assert (pm_path (uploadDataPathSpec "library/app" "abc123") = Ok scratch)
    as Hdata by reflexivity.
  assert (present "/v2/blobs/tarsum.v1+sha256:layer/data"
            (files example_shared_store) = false) as Hfresh
    by (vm_compute; reflexivity).
  apply (Finish_inmemory_commits example_lw (example_digest example_content)
           "tarsum.v1+sha256:layer" example_content
           "/v2/blobs/tarsum.v1+sha256:layer/data"
           "/v2/repositories/library/app/_layers/tarsum.v1+sha256:layer/link"
           scratch example_shared_store);
    try assumption; try reflexivity.
  discriminate.
Defined.

Lemma Finish_inmemory_failed_cleanup_witness :
  let r := run driver (Finish example_lw (example_digest example_content))
             example_failing_store in
  result_of r = Err io_error
  ∧ files (state_of r) !! "/v2/blobs/tarsum.v1+sha256:layer/data"
    = Some example_content
  ∧ files (state_of r)
      !! "/v2/repositories/library/app/_layers/tarsum.v1+sha256:layer/link"
    = Some (String.list_byte_of_string "tarsum.v1+sha256:layer").
Proof.
  assert (pm_path (blobDataPathSpec "tarsum.v1+sha256:layer")
          = Ok "/v2/blobs/tarsum.v1+sha256:layer/data") as Hblob
    by reflexivity.
  assert (pm_path (layerLinkPathSpec "library/app" "tarsum.v1+sha256:layer")
          = Ok "/v2/repositories/library/app/_layers/tarsum.v1+sha256:layer/link")
    as Hlink by reflexivity.
  assert (pm_path (uploadDataPathSpec "library/app" "abc123") = Ok scratch)
    as Hdata by reflexivity.
  assert (present "/v2/blobs/tarsum.v1+sha256:layer/data"
            (files example_failing_store) = false) as Hfresh
    by (vm_compute; reflexivity).
  apply (Finish_inmemory_failed_cleanup example_lw
           (example_digest example_content)
           "tarsum.v1+sha256:layer" example_content
           "/v2/blobs/tarsum.v1+sha256:layer/data"
           "/v2/repositories/library/app/_layers/tarsum.v1+sha256:layer/link"
           scratch example_failing_store);
    try assumption; try reflexivity.
  discriminate.
Defined.

End MoreSessions.

Section StrictSessions.
Import storage inmemory.
#[local] Existing Instance samples.example_strictK.

Lemma Finish_archive_error_first_witness :
  run driver (Finish example_lw (example_digest example_content))
    (example_store example_content)
  = (Err (Errorf "archive/tar: unexpected EOF"),
     example_store example_content,
     [announce_finish; Called (newFileReader scratch);
      Called (ReadAll {| fr_path := scratch; fr_size := 5 |})]).
Proof.
  apply (Finish_archive_error_first driver example_lw
           (example_digest example_content)
           {| fr_path := scratch; fr_size := 5 |} example_content
           (Errorf "archive/tar: unexpected EOF")
           (example_store example_content) (example_store example_content)
           (example_store example_content));
    reflexivity.
Defined.

(** C3, as the claim states it, fails.  The claimed digest has the
    accepted version and the scratch content does not verify against it,
    but the content is not an archive the digest package accepts: [Finish]
    returns the error of the archive reader, and no content-mismatch
    error. *)
Lemma unverified_content_without_mismatch_error :
  let dgst := "tarsum.v1+sha256:other" in
  let r := run driver (Finish example_lw dgst)
             (example_store example_content) in
  GetVersionFromTarsum (digest.String dgst) = Ok tarsum.Version1
  ∧ Verified dgst example_content = false
  ∧ result_of r = Err (Errorf "archive/tar: unexpected EOF")
  ∧ result_of r
    ≠ Err (ErrLayerInvalidDigest dgst
             (Errorf "content does not match digest")).
Proof. vm_compute. repeat split. discriminate. Qed.

End StrictSessions.

Lemma newGrpcSink_binds_dialed_connection_witness :
  let s := {| network.reachable := ["events:443"];
              network.delivered := [] |} in
  let e := [network.example_event "e-1" 1420070400] in
  ∃ g, run network.grpc (notifications.newGrpcSink "events:443") s
       = (Some g, s, [Called (notifications.Dial "events:443")])
     ∧ notifications.url g = "events:443"
     ∧ notifications.closed g = false
     ∧ notifications.mu g = notifications.Unlocked
     ∧ trace_of (run network.grpc (notifications.Close g) s)
       = [Called (notifications.ConnClose (grpcClient.Conn "events:443"))]
     ∧ trace_of (run network.grpc (notifications.Write g e) s)
       = [Called (notifications.Publish
                    (grpcClient.NewEventReceiverClient
                       (grpcClient.Conn "events:443"))
                    notifications.Background
                    {| grpcClient.Events.Events :=
                         map notifications.wire_event e |})].
Proof.
  intros s e.
  apply (newGrpcSink_binds_dialed_connection network.grpc "events:443"
           (grpcClient.Conn "events:443") e s s).
  reflexivity.
Defined.

(** ** A commit that finds its blob in place *)

Section Redundant.
Import storage inmemory.
Context `{K : Collaborators}.


End Redundant.

Section RedundantSessions.
Import storage inmemory.
#[local] Existing Instance exampleK.


Lemma Cancel_inmemory_effect_witness :
  let s1 := state_of (run driver (Cancel example_lw) example_shared_store) in
  result_of (run driver (Cancel example_lw) example_shared_store) = None
  ∧ (∀ k, covers (path_Dir scratch) k = true → files s1 !! k = None)
  ∧ (∀ k, covers (path_Dir scratch) k = false →
          files s1 !! k = files example_shared_store !! k).
Proof.
  assert (pm_path (uploadDataPathSpec "library/app" "abc123") = Ok scratch)
    as Hpath by reflexivity.
  exact (Cancel_inmemory_effect example_lw scratch example_shared_store
           Hpath eq_refl).
Defined.

End RedundantSessions.
